(** * ChronoFlow: free-time-slot computation and slot quality scoring

    Shallow embedding of [GoogleCalendarService.calculate_free_time_slots]
    and [GoogleCalendarService._calculate_slot_quality]
    (backend/app/services/google_calendar_service.py), together with the
    properties stated about them in the specification.

    Conventions of the embedding.
    - A (naive) [datetime] is the number of microseconds elapsed since
      0001-01-01T00:00:00, a [Z]; subtracting two of them gives the
      [timedelta] in microseconds.  All datetimes of one call are taken in
      one common frame (Python refuses to compare naive with aware ones).
    - Python [float] is IEEE binary64, i.e. Rocq's primitive [float]; the
      score arithmetic is embedded operation by operation.
    - [(b - a).total_seconds() / 60] is kept exact in the embedding of the
      two functions: its comparisons with 60 and 120 and its truncation
      [int(...)] are taken on the exact quotient of the microsecond count
      by 60_000_000.  The comparisons come out the same in binary64 at
      every span; the truncation comes out the same for spans shorter than
      a [century], and one minute higher for some spans of several
      centuries ([int_total_minutes_binary64] is the binary64 computation,
      [calculate_free_time_slots_binary64] the walk that uses it).
      Every property that depends on the value of the truncated count is
      stated for spans shorter than a [century].
    - A Python [str] is a [string] read as a sequence of code points below
      256; [Dict[str, Any]] is a [gmap string pyval].
    - Exceptions are values of [exn]; code that may raise returns a
      [result]. *)

From Stdlib Require Import ZArith List Bool Lia String Ascii.
From Stdlib Require Import PrimFloat SpecFloat FloatOps.
From Stdlib Require Import Sorting.Sorted Sorting.Permutation.
From stdpp Require Import base gmap strings.
Import ListNotations.
Local Open Scope Z_scope.

(** ** Python runtime: exceptions and dynamic values *)

Inductive exn : Type := ValueError | IndexError | TypeError.

Inductive result (A : Type) : Type :=
| Ok (a : A)
| Raise (e : exn).
Arguments Ok {A} a.
Arguments Raise {A} e.

Definition bind {A B : Type} (r : result A) (k : A -> result B) : result B :=
  match r with
  | Ok a => k a
  | Raise e => Raise e
  end.

Notation "'let*' p ':=' e 'in' k" := (bind e (fun p => k))
  (at level 10, p pattern, e at level 100, k at level 200, only parsing).

(** [try: body except (ValueError, IndexError): handler]. *)
Definition try_except_ValueError_IndexError {A : Type}
    (body : result A) (handler : result A) : result A :=
  match body with
  | Ok a => Ok a
  | Raise ValueError => handler
  | Raise IndexError => handler
  | Raise TypeError => Raise TypeError
  end.

(** The values a preference dictionary holds: strings (the current
    format, also what a [WorkStyle] member compares equal to), integers
    (the old format) and [None]. *)
Inductive pyval : Type :=
| PStr (s : string)
| PInt (n : Z)
| PNone.

Definition pyval_eqb (a b : pyval) : bool :=
  match a, b with
  | PStr s, PStr t => String.eqb s t
  | PInt n, PInt m => n =? m
  | PNone, PNone => true
  | _, _ => false
  end.

(** [v <= hour] and [hour < v] for an integer [hour]: ordering an [int]
    against a [str] or [None] raises [TypeError]. *)
Definition py_le_int (v : pyval) (hour : Z) : result bool :=
  match v with
  | PInt n => Ok (n <=? hour)
  | _ => Raise TypeError
  end.

Definition py_int_lt (hour : Z) (v : pyval) : result bool :=
  match v with
  | PInt n => Ok (hour <? n)
  | _ => Raise TypeError
  end.

(** [lo <= hour < hi]: the chained comparison evaluates [hour < hi] only
    when [lo <= hour] holds. *)
Definition py_chain_le_lt (lo : pyval) (hour : Z) (hi : pyval) : result bool :=
  let* c := py_le_int lo hour in
  if (c : bool) then py_int_lt hour hi else Ok false.

(** ** Python strings *)

(** [c in s] for a one-character [c]. *)
Fixpoint str_contains (c : ascii) (s : string) : bool :=
  match s with
  | EmptyString => false
  | String a s' => Ascii.eqb a c || str_contains c s'
  end.

(** [s.split(sep)] for a one-character separator: never empty. *)
Fixpoint str_split (sep : ascii) (s : string) : list string :=
  match s with
  | EmptyString => [EmptyString]
  | String a s' =>
      if Ascii.eqb a sep then EmptyString :: str_split sep s'
      else match str_split sep s' with
           | [] => [String a EmptyString]
           | w :: ws => String a w :: ws
           end
  end.

(** [l[i]] for a non-negative literal index. *)
Definition getitem {A : Type} (l : list A) (i : nat) : result A :=
  match nth_error l i with
  | Some x => Ok x
  | None => Raise IndexError
  end.

(** [int(s)] in base ten: surrounding whitespace is dropped, one sign is
    allowed, digits may be grouped by single underscores.  Among the code
    points below 256 the whitespace is 9 to 13, 32, 133 and 160 and the
    digits are ["0"] to ["9"].  A literal of more than 4300 digits
    (underscores, sign and whitespace not counted) is refused with
    [ValueError], the default limit of the interpreter from 3.11 on. *)
Definition is_space (c : ascii) : bool :=
  let n := Z.of_N (N_of_ascii c) in
  ((9 <=? n) && (n <=? 13)) || (n =? 32) || (n =? 133) || (n =? 160).

Definition digit_of (c : ascii) : option Z :=
  let n := Z.of_N (N_of_ascii c) in
  if (48 <=? n) && (n <=? 57) then Some (n - 48) else None.

Fixpoint lstrip (s : string) : string :=
  match s with
  | EmptyString => EmptyString
  | String c s' => if is_space c then lstrip s' else s
  end.

Fixpoint all_space (s : string) : bool :=
  match s with
  | EmptyString => true
  | String c s' => is_space c && all_space s'
  end.

Inductive digits_state : Type := AtStart | AfterDigit | AfterUnderscore.

Fixpoint digits (st : digits_state) (acc : Z) (s : string) : option Z :=
  match s with
  | EmptyString =>
      match st with AfterDigit => Some acc | _ => None end
  | String c s' =>
      match digit_of c with
      | Some d => digits AfterDigit (10 * acc + d) s'
      | None =>
          match st with
          | AfterDigit =>
              if Ascii.eqb c "_" then digits AfterUnderscore acc s'
              else if is_space c && all_space s' then Some acc
              else None
          | _ => None
          end
      end
  end.

Fixpoint count_digits (s : string) : Z :=
  match s with
  | EmptyString => 0
  | String c s' =>
      match digit_of c with
      | Some _ => 1 + count_digits s'
      | None => count_digits s'
      end
  end.

Definition int_max_str_digits : Z := 4300.

Definition int_of_str (s : string) : result Z :=
  let parse (sign : Z) (body : string) : result Z :=
    match digits AtStart 0 body with
    | Some n =>
        if count_digits body <=? int_max_str_digits then Ok (sign * n)
        else Raise ValueError
    | None => Raise ValueError
    end in
  match lstrip s with
  | String "-" body => parse (-1) body
  | String "+" body => parse 1 body
  | body => parse 1 body
  end.

(** ** Dates and durations *)

Abbreviation datetime := Z (only parsing).
Abbreviation timedelta := Z (only parsing).

Definition microseconds_per_minute : Z := 60000000.
Definition microseconds_per_hour : Z := 3600000000.

(** [t.hour] *)
Definition hour (t : datetime) : Z := (t / microseconds_per_hour) mod 24.

(** [d.total_seconds() / 60 >= n] for an integer literal [n]. *)
Definition total_minutes_ge (d : timedelta) (n : Z) : bool :=
  n * microseconds_per_minute <=? d.

(** [int(d.total_seconds() / 60)]: [int] truncates toward zero.  This is
    the exact count of whole minutes, which is what the binary64
    computation [int_total_minutes_binary64] below gives for spans shorter
    than a [century]. *)
Definition int_total_minutes (d : timedelta) : Z :=
  Z.quot d microseconds_per_minute.

(** One hundred years of 365.25 days, in microseconds. *)
Definition century : Z := 3155760000000000.

(** [d.total_seconds()]: the microsecond count divided by [10**6], a true
    division of two Python integers, which is rounded once, to the nearest
    binary64 (ties to even).  The quotient is taken with 128 extra bits and
    a sticky bit before rounding. *)
Definition total_seconds (d : timedelta) : float :=
  let n := Z.shiftl (Z.abs d) 128 in
  let sticky := if n mod 1000000 =? 0 then 0 else 1 in
  let x := SF2Prim (binary_normalize prec emax
                      (2 * (n / 1000000) + sticky) (-129) false) in
  if d <? 0 then (- x)%float else x.

(** [int(x)] for a float: truncation toward zero; infinities and NaN have
    no integer value. *)
Definition int_of_float (x : float) : option Z :=
  match Prim2SF x with
  | S754_zero _ => Some 0
  | S754_finite s m e =>
      let v := if 0 <=? e then Z.pos m * 2 ^ e
               else Z.quot (Z.pos m) (2 ^ (- e)) in
      Some (if s then - v else v)
  | S754_infinity _ => None
  | S754_nan => None
  end.

(** [int(d.total_seconds() / 60)], every step in binary64. *)
Definition int_total_minutes_binary64 (d : timedelta) : option Z :=
  int_of_float (total_seconds d / 60)%float.

(** Day [day] (counted from the epoch) at [h]:[m]. *)
Definition at_time (day h m : Z) : datetime :=
  ((day * 24 + h) * 60 + m) * microseconds_per_minute.

(** ** Schemas (backend/app/schemas/scheduling.py) *)

Module CalendarEvent.
Record t : Type := Build {
  event_id : string;
  title : string;
  start_time : datetime;
  end_time : datetime;
  is_busy : bool;
  event_type : string
}.
End CalendarEvent.

(** [quality_score] is declared [Field(ge=0, le=1)]: the constructor
    rejects a score outside the unit interval.  Every score built below is
    the result of [_calculate_slot_quality], which ends in a clamp to that
    interval, so the check is not modelled as a failure. *)
Module FreeTimeSlot.
Record t : Type := Build {
  start_time : datetime;
  end_time : datetime;
  duration_minutes : Z;
  quality_score : float
}.
End FreeTimeSlot.

(** ** GoogleCalendarService._calculate_slot_quality *)

(** The expression written out four times in the source, once per
    time-of-day preference:
    [int(s.split("T")[1].split(":")[0])] when ["T" in s], otherwise
    [int(s.split(":")[0])]. *)
Definition hour_of_time_string (s : string) : result Z :=
  if str_contains "T" s then
    let* after_T := getitem (str_split "T" s) 1 in
    let* time_part := getitem (str_split ":" after_T) 0 in
    int_of_str time_part
  else
    let* hh := getitem (str_split ":" s) 0 in
    int_of_str hh.

(** [d.get(key, dflt)] *)
Definition dict_get (d : gmap string pyval) (key : string) (dflt : pyval) : pyval :=
  default dflt (d !! key).

(** The first [try] block: both work hours, or both defaults. *)
Definition work_hours (user_preferences : gmap string pyval) : result (pyval * pyval) :=
  let work_start_time := dict_get user_preferences "work_start_time" (PStr "09:00") in
  let work_end_time := dict_get user_preferences "work_end_time" (PStr "17:00") in
  try_except_ValueError_IndexError
    (let* work_start :=
       match work_start_time with
       | PStr s => let* h := hour_of_time_string s in Ok (PInt h)
       | _ => Ok (dict_get user_preferences "work_start_hour" (PInt 9))
       end in
     let* work_end :=
       match work_end_time with
       | PStr s => let* h := hour_of_time_string s in Ok (PInt h)
       | _ => Ok (dict_get user_preferences "work_end_hour" (PInt 17))
       end in
     Ok (work_start, work_end))
    (Ok (PInt 9, PInt 17)).

(** The second [try] block: both peak hours, or both defaults. *)
Definition peak_hours (user_preferences : gmap string pyval) : result (pyval * pyval) :=
  let peak_start_time := dict_get user_preferences "peak_hours_start" (PStr "10:00") in
  let peak_end_time := dict_get user_preferences "peak_hours_end" (PStr "12:00") in
  try_except_ValueError_IndexError
    (let* peak_start :=
       match peak_start_time with
       | PStr s => let* h := hour_of_time_string s in Ok (PInt h)
       | _ => Ok (dict_get user_preferences "peak_hours_start" (PInt 10))
       end in
     let* peak_end :=
       match peak_end_time with
       | PStr s => let* h := hour_of_time_string s in Ok (PInt h)
       | _ => Ok (dict_get user_preferences "peak_hours_end" (PInt 12))
       end in
     Ok (peak_start, peak_end))
    (Ok (PInt 10, PInt 12)).

(** [max(0.0, min(1.0, quality))]: [min(a, b)] is [b] when [b < a] and [a]
    otherwise, [max(a, b)] is [b] when [b > a] and [a] otherwise. *)
Definition py_min (a b : float) : float := if PrimFloat.ltb b a then b else a.
Definition py_max (a b : float) : float := if PrimFloat.ltb a b then b else a.

Definition _calculate_slot_quality (start_time end_time : datetime)
    (user_preferences : gmap string pyval) : result float :=
  let quality := 0.5%float in
  let hour := hour start_time in
  let* (work_start, work_end) := work_hours user_preferences in
  let* in_work := py_chain_le_lt work_start hour work_end in
  let quality := if (in_work : bool) then (quality + 0.3)%float else quality in
  let* (peak_start, peak_end) := peak_hours user_preferences in
  let* in_peak := py_chain_le_lt peak_start hour peak_end in
  let quality := if (in_peak : bool) then (quality + 0.3)%float else quality in
  let work_style := dict_get user_preferences "work_style" (PStr "flexible") in
  let quality :=
    if pyval_eqb work_style (PStr "morning_person") && (hour <? 12)
    then (quality + 0.2)%float
    else if pyval_eqb work_style (PStr "evening_person") && (hour >=? 15)
    then (quality + 0.2)%float
    else quality in
  let quality :=
    if (hour <? 7) || (hour >? 20) then (quality - 0.3)%float else quality in
  let duration := end_time - start_time in
  let quality :=
    if total_minutes_ge duration 60 then (quality + 0.1)%float else quality in
  let quality :=
    if total_minutes_ge duration 120 then (quality + 0.1)%float else quality in
  Ok (py_max 0.0 (py_min 1.0 quality)).

(** ** GoogleCalendarService.calculate_free_time_slots *)

(** [list.sort(key=lambda x: x.start_time)]: the sort is stable, so the
    result is the one a stable insertion sort gives. *)
Fixpoint insert_by_start (x : CalendarEvent.t) (l : list CalendarEvent.t)
    : list CalendarEvent.t :=
  match l with
  | [] => [x]
  | y :: l' =>
      if CalendarEvent.start_time x <=? CalendarEvent.start_time y
      then x :: y :: l'
      else y :: insert_by_start x l'
  end.

Fixpoint sort_by_start (l : list CalendarEvent.t) : list CalendarEvent.t :=
  match l with
  | [] => []
  | x :: l' => insert_by_start x (sort_by_start l')
  end.

(** The two statements opening the function. *)
Definition busy_events (events : list CalendarEvent.t) : list CalendarEvent.t :=
  sort_by_start (List.filter CalendarEvent.is_busy events).

(** The block guarded by [if current_time < bound], shared by the loop
    body ([bound = event.start_time]) and the tail ([bound = end_time]). *)
Definition append_gap (current_time bound : datetime)
    (user_preferences : gmap string pyval) (minimum_slot_minutes : Z)
    (free_slots : list FreeTimeSlot.t) : result (list FreeTimeSlot.t) :=
  if current_time <? bound then
    let slot_duration := int_total_minutes (bound - current_time) in
    if slot_duration >=? minimum_slot_minutes then
      let* quality_score :=
        _calculate_slot_quality current_time bound user_preferences in
      Ok (free_slots ++
          [FreeTimeSlot.Build current_time bound slot_duration quality_score])
    else Ok free_slots
  else Ok free_slots.

(** [for event in busy_events: ...], threading [current_time] and
    [free_slots]. *)
Fixpoint for_events (events : list CalendarEvent.t)
    (user_preferences : gmap string pyval) (minimum_slot_minutes : Z)
    (current_time : datetime) (free_slots : list FreeTimeSlot.t)
    : result (datetime * list FreeTimeSlot.t) :=
  match events with
  | [] => Ok (current_time, free_slots)
  | event :: rest =>
      let* free_slots :=
        append_gap current_time (CalendarEvent.start_time event)
          user_preferences minimum_slot_minutes free_slots in
      let current_time := Z.max current_time (CalendarEvent.end_time event) in
      for_events rest user_preferences minimum_slot_minutes current_time free_slots
  end.

Definition calculate_free_time_slots (events : list CalendarEvent.t)
    (start_time end_time : datetime) (user_preferences : gmap string pyval)
    (minimum_slot_minutes : Z) : result (list FreeTimeSlot.t) :=
  let* (current_time, free_slots) :=
    for_events (busy_events events) user_preferences minimum_slot_minutes
      start_time [] in
  append_gap current_time end_time user_preferences minimum_slot_minutes
    free_slots.

(** ** The same walk, the slot duration in binary64

    The three definitions above with [int_total_minutes_binary64] for the
    slot duration: what the function returns at every span, also where the
    two float divisions round the minute count up to the next whole
    minute.  Below a [century] the two roundings, each of relative error
    at most 2^-53, cannot carry the quotient over a whole minute (the
    microsecond count is below 2^52), and the two walks are the same. *)
Definition append_gap_binary64 (current_time bound : datetime)
    (user_preferences : gmap string pyval) (minimum_slot_minutes : Z)
    (free_slots : list FreeTimeSlot.t) : result (list FreeTimeSlot.t) :=
  if current_time <? bound then
    match int_total_minutes_binary64 (bound - current_time) with
    | Some slot_duration =>
        if slot_duration >=? minimum_slot_minutes then
          let* quality_score :=
            _calculate_slot_quality current_time bound user_preferences in
          Ok (free_slots ++
              [FreeTimeSlot.Build current_time bound slot_duration quality_score])
        else Ok free_slots
    | None => Raise ValueError
    end
  else Ok free_slots.

Fixpoint for_events_binary64 (events : list CalendarEvent.t)
    (user_preferences : gmap string pyval) (minimum_slot_minutes : Z)
    (current_time : datetime) (free_slots : list FreeTimeSlot.t)
    : result (datetime * list FreeTimeSlot.t) :=
  match events with
  | [] => Ok (current_time, free_slots)
  | event :: rest =>
      let* free_slots :=
        append_gap_binary64 current_time (CalendarEvent.start_time event)
          user_preferences minimum_slot_minutes free_slots in
      let current_time := Z.max current_time (CalendarEvent.end_time event) in
      for_events_binary64 rest user_preferences minimum_slot_minutes
        current_time free_slots
  end.

Definition calculate_free_time_slots_binary64 (events : list CalendarEvent.t)
    (start_time end_time : datetime) (user_preferences : gmap string pyval)
    (minimum_slot_minutes : Z) : result (list FreeTimeSlot.t) :=
  let* (current_time, free_slots) :=
    for_events_binary64 (busy_events events) user_preferences
      minimum_slot_minutes start_time [] in
  append_gap_binary64 current_time end_time user_preferences
    minimum_slot_minutes free_slots.

(** * Vocabulary of the properties *)

(** ** The specification's reading of the inputs *)

(** The preference dictionary is well typed when every hour the scoring
    may compare is an integer: a time-of-day entry is a string (or is
    missing), or else the old-format entry consulted in its place is an
    integer (or is missing). *)
Definition int_or_missing (d : gmap string pyval) (key : string) : bool :=
  match d !! key with
  | None | Some (PInt _) => true
  | Some _ => false
  end.

Definition hour_entry_ok (d : gmap string pyval) (time_key old_key : string) : bool :=
  match d !! time_key with
  | None | Some (PStr _) => true
  | Some _ => int_or_missing d old_key
  end.

Definition preferences_well_typed (d : gmap string pyval) : bool :=
  hour_entry_ok d "work_start_time" "work_start_hour"
  && hour_entry_ok d "work_end_time" "work_end_hour"
  && hour_entry_ok d "peak_hours_start" "peak_hours_start"
  && hour_entry_ok d "peak_hours_end" "peak_hours_end".

(** [workStyle] of the specification, read off the dictionary: any value
    other than the two named styles behaves as FLEXIBLE. *)
Inductive WorkStyle : Type := MORNING_PERSON | EVENING_PERSON | FLEXIBLE.

Definition workStyle (d : gmap string pyval) : WorkStyle :=
  match dict_get d "work_style" (PStr "flexible") with
  | PStr s =>
      if String.eqb s "morning_person" then MORNING_PERSON
      else if String.eqb s "evening_person" then EVENING_PERSON
      else FLEXIBLE
  | _ => FLEXIBLE
  end.

(** The scoring rule in the specification's words: 0.5 plus the listed
    adjustments, clamped to the unit interval. *)
Definition adjustment (applies : bool) (delta : float) : float :=
  if applies then delta else 0%float.

Definition clamp_unit (x : float) : float :=
  if PrimFloat.ltb x 0 then 0%float
  else if PrimFloat.ltb 1 x then 1%float
  else x.

Definition is_morning (s : WorkStyle) : bool :=
  match s with MORNING_PERSON => true | _ => false end.
Definition is_evening (s : WorkStyle) : bool :=
  match s with EVENING_PERSON => true | _ => false end.

Definition scoreSlot_spec (h workStartHour workEndHour peakStartHour peakEndHour : Z)
    (style : WorkStyle) (durationMinutes : Z) : float :=
  let in_work_hours := (workStartHour <=? h) && (h <? workEndHour) in
  let in_peak_hours := (peakStartHour <=? h) && (h <? peakEndHour) in
  let morning := is_morning style && (h <? 12) in
  let evening := is_evening style && (15 <=? h) in
  let early_or_late := (h <? 7) || (20 <? h) in
  let at_least_60 := 60 <=? durationMinutes in
  let at_least_120 := 120 <=? durationMinutes in
  clamp_unit
    (0.5
     + adjustment in_work_hours 0.3
     + adjustment in_peak_hours 0.3
     + adjustment morning 0.2
     + adjustment evening 0.2
     - adjustment early_or_late 0.3
     + adjustment at_least_60 0.1
     + adjustment at_least_120 0.1)%float.

Definition in_unit_interval (q : float) : Prop :=
  PrimFloat.leb 0 q = true /\ PrimFloat.leb q 1 = true.

(** ** The two [try] blocks, factored *)

(** One field of a [try] block. *)
Definition field_hour (raw old : pyval) : result pyval :=
  match raw with
  | PStr s => let* h := hour_of_time_string s in Ok (PInt h)
  | _ => Ok old
  end.

Definition pair_hours (raw1 old1 raw2 old2 : pyval) (d1 d2 : Z)
    : result (pyval * pyval) :=
  try_except_ValueError_IndexError
    (let* a := field_hour raw1 old1 in
     let* b := field_hour raw2 old2 in
     Ok (a, b))
    (Ok (PInt d1, PInt d2)).

Definition is_int (v : pyval) : bool :=
  match v with PInt _ => true | _ => false end.

(** ** The walk as a list of gaps *)

(** A candidate gap [current_time, bound) is kept when it is non-empty
    and lasts at least the minimum number of whole minutes. *)
Definition keeps_gap (current_time bound : datetime) (minimum_slot_minutes : Z) : bool :=
  (current_time <? bound)
  && (int_total_minutes (bound - current_time) >=? minimum_slot_minutes).

Definition gap_if_kept (current_time bound : datetime) (minimum_slot_minutes : Z)
    : list (datetime * datetime) :=
  if keeps_gap current_time bound minimum_slot_minutes
  then [(current_time, bound)] else [].

(** The gaps kept by the loop and the tail, in the order they are met. *)
Fixpoint kept_gaps (events : list CalendarEvent.t) (minimum_slot_minutes : Z)
    (end_time current_time : datetime) : list (datetime * datetime) :=
  match events with
  | [] => gap_if_kept current_time end_time minimum_slot_minutes
  | event :: rest =>
      gap_if_kept current_time (CalendarEvent.start_time event) minimum_slot_minutes
      ++ kept_gaps rest minimum_slot_minutes end_time
           (Z.max current_time (CalendarEvent.end_time event))
  end.

(** The slot built for a kept gap. *)
Definition slot_of_gap (user_preferences : gmap string pyval)
    (gap : datetime * datetime) : result FreeTimeSlot.t :=
  let* quality_score :=
    _calculate_slot_quality (fst gap) (snd gap) user_preferences in
  Ok (FreeTimeSlot.Build (fst gap) (snd gap)
        (int_total_minutes (snd gap - fst gap)) quality_score).

Fixpoint mapM {A B : Type} (f : A -> result B) (l : list A) : result (list B) :=
  match l with
  | [] => Ok []
  | a :: l' =>
      let* b := f a in
      let* bs := mapM f l' in
      Ok (b :: bs)
  end.

Definition slot_bounds (slot : FreeTimeSlot.t) : datetime * datetime :=
  (FreeTimeSlot.start_time slot, FreeTimeSlot.end_time slot).


(** ** Order, well-formedness, intersection *)

Definition start_le (a b : CalendarEvent.t) : Prop :=
  CalendarEvent.start_time a <= CalendarEvent.start_time b.

(** [end >= start], the invariant of a busy interval. *)
Definition well_formed (e : CalendarEvent.t) : Prop :=
  CalendarEvent.start_time e <= CalendarEvent.end_time e.

(** Stability: among the events of one start time, the input order is
    kept. *)
Definition starts_at (k : datetime) (e : CalendarEvent.t) : bool :=
  CalendarEvent.start_time e =? k.

(** Two half-open time ranges share an instant. *)
Definition intersects (i j : datetime * datetime) : Prop :=
  exists t, (fst i <= t < snd i) /\ (fst j <= t < snd j).

Definition event_span (e : CalendarEvent.t) : datetime * datetime :=
  (CalendarEvent.start_time e, CalendarEvent.end_time e).

(** ** The order the specification describes *)

(** Start ascending, ties on equal start broken by end ascending. *)
Definition start_then_end_leb (a b : CalendarEvent.t) : bool :=
  (CalendarEvent.start_time a <? CalendarEvent.start_time b)
  || ((CalendarEvent.start_time a =? CalendarEvent.start_time b)
      && (CalendarEvent.end_time a <=? CalendarEvent.end_time b)).

Fixpoint insert_by_start_then_end (x : CalendarEvent.t) (l : list CalendarEvent.t)
    : list CalendarEvent.t :=
  match l with
  | [] => [x]
  | y :: l' =>
      if start_then_end_leb x y then x :: y :: l'
      else y :: insert_by_start_then_end x l'
  end.

Fixpoint sort_by_start_then_end (l : list CalendarEvent.t) : list CalendarEvent.t :=
  match l with
  | [] => []
  | x :: l' => insert_by_start_then_end x (sort_by_start_then_end l')
  end.

(** ** Sample inputs *)

Definition meeting (title : string) (start_time end_time : datetime)
    : CalendarEvent.t :=
  CalendarEvent.Build title title start_time end_time true "meeting".

Definition long_meeting : CalendarEvent.t :=
  meeting "long" (at_time 0 9 0) (at_time 0 11 0).
Definition short_meeting : CalendarEvent.t :=
  meeting "short" (at_time 0 9 0) (at_time 0 10 0).

Definition overlap_first : CalendarEvent.t :=
  meeting "first" (at_time 0 9 0) (at_time 0 10 0).
Definition overlap_second : CalendarEvent.t :=
  meeting "second" (at_time 0 9 30) (at_time 0 10 30).
Definition overlap_merged : CalendarEvent.t :=
  meeting "merged" (at_time 0 9 0) (at_time 0 10 30).

(** The defaults of the [UserPreferences] document. *)
Definition default_preferences : gmap string pyval :=
  <["work_start_time" := PStr "09:00"]>
  (<["work_end_time" := PStr "17:00"]>
  (<["work_style" := PStr "flexible"]>
  (<["peak_hours_start" := PStr "10:00"]>
  (<["peak_hours_end" := PStr "12:00"]> ∅)))).

(** A well-formed start of the work day next to an unreadable end. *)
Definition preferences_bad_work_end : gmap string pyval :=
  <["work_start_time" := PStr "08:00"]>
  (<["work_end_time" := PStr "not-a-time"]> ∅).

(** ** Readings of the time-of-day fields *)

(** The reading the claim describes: each field on its own, its default
    when it does not parse. *)
Definition independent_hour (raw : pyval) (dflt : Z) : Z :=
  match raw with
  | PStr s =>
      match hour_of_time_string s with
      | Ok h => h
      | Raise _ => dflt
      end
  | _ => dflt
  end.

(** The reading the source implements: the two fields of a pair take
    their hours together or their defaults together. *)
Definition paired_hours (raw1 raw2 : string) (dflt1 dflt2 : Z) : pyval * pyval :=
  match hour_of_time_string raw1, hour_of_time_string raw2 with
  | Ok h1, Ok h2 => (PInt h1, PInt h2)
  | _, _ => (PInt dflt1, PInt dflt2)
  end.

Definition digit_char (d : nat) : ascii := ascii_of_nat (48 + d).

(** ["HH:" ++ rest], a bare time of day. *)
Definition bare_time (d1 d2 : nat) (rest : string) : string :=
  String (digit_char d1) (String (digit_char d2) (String ":" rest)).

(** [date ++ "T" ++ "HH:" ++ rest], a full timestamp. *)
Definition timestamp (date : string) (d1 d2 : nat) (rest : string) : string :=
  String.append date (String "T" (bare_time d1 d2 rest)).

(** * Further code: event categories, calendar responses, the caller *)

(** ** More of the Python runtime *)

(** [c.lower()] for a code point below 256: the letters A to Z and the
    accented capitals 192 to 222 (215, the multiplication sign, apart) move
    up by 32. *)
Definition char_lower (c : ascii) : ascii :=
  let n := Z.of_N (N_of_ascii c) in
  if ((65 <=? n) && (n <=? 90))
     || ((192 <=? n) && (n <=? 222) && negb (n =? 215))
  then ascii_of_N (N_of_ascii c + 32)
  else c.

(** [s.lower()] *)
Fixpoint str_lower (s : string) : string :=
  match s with
  | EmptyString => EmptyString
  | String c s' => String (char_lower c) (str_lower s')
  end.

(** [s.startswith(w)] *)
Fixpoint starts_with (w s : string) : bool :=
  match w, s with
  | EmptyString, _ => true
  | String _ _, EmptyString => false
  | String a w', String b s' => Ascii.eqb a b && starts_with w' s'
  end.

(** [w in s] for two strings: [w] occurs somewhere in [s]. *)
Fixpoint str_in (w s : string) : bool :=
  starts_with w s
  || match s with
     | EmptyString => false
     | String _ s' => str_in w s'
     end.

(** [s.replace(old, new)] for a one-character [old]. *)
Fixpoint str_replace (old : ascii) (new : string) (s : string) : string :=
  match s with
  | EmptyString => EmptyString
  | String c s' =>
      if Ascii.eqb c old then String.append new (str_replace old new s')
      else String c (str_replace old new s')
  end.

(** ** GoogleCalendarService._categorize_event *)

(** [any(word in title_lower for word in words)] *)
Definition any_word_in (words : list string) (title_lower : string) : bool :=
  existsb (fun word => str_in word title_lower) words.

Definition meeting_words : list string :=
  ["meeting"%string; "call"%string; "conference"%string; "interview"%string].
Definition personal_words : list string :=
  ["lunch"%string; "dinner"%string; "coffee"%string; "break"%string].
Definition appointment_words : list string :=
  ["doctor"%string; "appointment"%string; "dentist"%string].
Definition focus_words : list string :=
  ["focus"%string; "work"%string; "code"%string; "write"%string].

Definition _categorize_event (title : string) : string :=
  let title_lower := str_lower title in
  if any_word_in meeting_words title_lower then "meeting"%string
  else if any_word_in personal_words title_lower then "personal"%string
  else if any_word_in appointment_words title_lower then "appointment"%string
  else if any_word_in focus_words title_lower then "focus_time"%string
  else "other"%string.

(** ** GoogleCalendarService.get_user_calendar_events: reading the response *)

(** One entry of ["items"] in the body of the response, as the loop reads
    it: [event["id"]], [event.get("summary")],
    [event.get("start", {}).get("dateTime")], the same for ["end"], and
    [event.get("transparency")].  A missing key, or a ["start"] without
    ["dateTime"] (an all-day event), is [None]. *)
Module CalendarItem.
Record t : Type := Build {
  id : option string;
  summary : option string;
  start_dateTime : option string;
  end_dateTime : option string;
  transparency : option string
}.
End CalendarItem.

(** The body of the [for] loop; [datetime.fromisoformat] is a parameter.
    [None] stands for an exception (a [ValueError] of [fromisoformat], the
    [KeyError] of [event["id"]]): the enclosing [except Exception] treats
    them all alike.  Otherwise the result is the list appended to [events]:
    nothing after [continue], one event else. *)
Definition event_of_item (fromisoformat : string -> option datetime)
    (event : CalendarItem.t) : option (list CalendarEvent.t) :=
  match CalendarItem.start_dateTime event, CalendarItem.end_dateTime event with
  | Some start_text, Some end_text =>
      match fromisoformat (str_replace "Z" "+00:00" start_text) with
      | None => None
      | Some start_dt =>
          match fromisoformat (str_replace "Z" "+00:00" end_text) with
          | None => None
          | Some end_dt =>
              let is_busy :=
                String.eqb (default "opaque"%string (CalendarItem.transparency event))
                  "opaque" in
              match CalendarItem.id event with
              | None => None
              | Some event_id =>
                  Some [CalendarEvent.Build event_id
                          (default "Untitled Event"%string (CalendarItem.summary event))
                          start_dt end_dt is_busy
                          (_categorize_event
                             (default EmptyString (CalendarItem.summary event)))]
              end
          end
      end
  | _, _ => Some []
  end.

(** [for event in data.get("items", []): ...], threading [events]. *)
Fixpoint for_items (fromisoformat : string -> option datetime)
    (items : list CalendarItem.t) (events : list CalendarEvent.t)
    : option (list CalendarEvent.t) :=
  match items with
  | [] => Some events
  | event :: rest =>
      match event_of_item fromisoformat event with
      | None => None
      | Some new => for_items fromisoformat rest (events ++ new)
      end
  end.

(** What [get_user_calendar_events] returns once the response is there:
    a status other than 200 raises, and whatever is raised inside the [try]
    is answered by the empty list. *)
Definition calendar_events_of_response (fromisoformat : string -> option datetime)
    (status_code : Z) (items : option (list CalendarItem.t))
    : list CalendarEvent.t :=
  let attempt :=
    if negb (status_code =? 200) then None
    else for_items fromisoformat (default [] items) [] in
  default [] attempt.

(** ** AISchedulingService.schedule_tasks: steps 3 and 4 *)

(** The fields of the [UserPreferences] document that these steps read. *)
Module UserPreferences.
Record t : Type := Build {
  work_start_time : string;
  work_end_time : string;
  work_style : WorkStyle;
  peak_hours_start : string;
  peak_hours_end : string;
  minimum_focus_block_minutes : Z
}.
End UserPreferences.

(** [WorkStyle.value]; a member of this [str] enumeration compares equal
    to its value. *)
Definition WorkStyle_value (style : WorkStyle) : string :=
  match style with
  | MORNING_PERSON => "morning_person"
  | EVENING_PERSON => "evening_person"
  | FLEXIBLE => "flexible"
  end.

(** [user_prefs.dict()], restricted to the entries the scoring looks up;
    the document has no field called [work_start_hour] or
    [work_end_hour]. *)
Definition UserPreferences_dict (user_prefs : UserPreferences.t)
    : gmap string pyval :=
  <["work_start_time" := PStr (UserPreferences.work_start_time user_prefs)]>
  (<["work_end_time" := PStr (UserPreferences.work_end_time user_prefs)]>
  (<["work_style" := PStr (WorkStyle_value (UserPreferences.work_style user_prefs))]>
  (<["peak_hours_start" := PStr (UserPreferences.peak_hours_start user_prefs)]>
  (<["peak_hours_end" := PStr (UserPreferences.peak_hours_end user_prefs)]> ∅)))).

(** [list.sort(key=lambda x: x.quality_score, reverse=True)]: higher
    scores first, slots of equal score in their former order. *)
Fixpoint insert_by_quality (x : FreeTimeSlot.t) (l : list FreeTimeSlot.t)
    : list FreeTimeSlot.t :=
  match l with
  | [] => [x]
  | y :: l' =>
      if PrimFloat.ltb (FreeTimeSlot.quality_score x) (FreeTimeSlot.quality_score y)
      then y :: insert_by_quality x l'
      else x :: y :: l'
  end.

Fixpoint sort_by_quality (l : list FreeTimeSlot.t) : list FreeTimeSlot.t :=
  match l with
  | [] => []
  | x :: l' => insert_by_quality x (sort_by_quality l')
  end.

(** [slot.quality_score >= 0.3] *)
Definition good_enough (slot : FreeTimeSlot.t) : bool :=
  PrimFloat.leb 0.3 (FreeTimeSlot.quality_score slot).

(** Step 4: filter, then sort. *)
Definition quality_slots (free_slots : list FreeTimeSlot.t) : list FreeTimeSlot.t :=
  sort_by_quality (List.filter good_enough free_slots).

(** Steps 3 and 4 together, from the calendar events of step 2. *)
Definition schedule_tasks_quality_slots (calendar_events : list CalendarEvent.t)
    (date_range_start date_range_end : datetime) (user_prefs : UserPreferences.t)
    : result (list FreeTimeSlot.t) :=
  let* free_slots :=
    calculate_free_time_slots calendar_events date_range_start date_range_end
      (UserPreferences_dict user_prefs)
      (UserPreferences.minimum_focus_block_minutes user_prefs) in
  Ok (quality_slots free_slots).

(** ** Vocabulary of the further properties *)

(** The lower-case form of [title] contains one of [words]. *)
Definition mentions (words : list string) (title : string) : Prop :=
  exists word pre post,
    In word words
    /\ str_lower title = String.append pre (String.append word post).

(** The scores the scoring can return, in ascending order. *)
Definition score_values : list float :=
  [0.2; 0.30000000000000004; 0.39999999999999997; 0.4; 0.5;
   0.5999999999999999; 0.6; 0.6999999999999998; 0.7; 0.7999999999999998;
   0.7999999999999999; 0.8; 0.8999999999999999; 0.9; 0.9999999999999999;
   1.0]%float.

(** The position of a score in that list. *)
Fixpoint position (q : float) (l : list float) : nat :=
  match l with
  | [] => O
  | v :: l' => if PrimFloat.eqb q v then O else S (position q l')
  end.

Definition score_rank (q : float) : nat := position q score_values.

(** The one case in which a slot scores below 0.3: an early or late start
    with no bonus at all. *)
Definition scores_below_threshold (h workStartHour workEndHour peakStartHour
    peakEndHour : Z) (style : WorkStyle) (durationMinutes : Z) : bool :=
  ((h <? 7) || (20 <? h))
  && negb ((workStartHour <=? h) && (h <? workEndHour))
  && negb ((peakStartHour <=? h) && (h <? peakEndHour))
  && negb (is_morning style && (h <? 12))
  && negb (is_evening style && (15 <=? h))
  && negb (60 <=? durationMinutes).

(** The order of the slots handed on by the caller: a higher score first,
    and among equal scores the earlier slot first. *)
Definition offered_before (s1 s2 : FreeTimeSlot.t) : Prop :=
  PrimFloat.ltb (FreeTimeSlot.quality_score s2) (FreeTimeSlot.quality_score s1)
  = true
  \/ (FreeTimeSlot.quality_score s1 = FreeTimeSlot.quality_score s2
      /\ FreeTimeSlot.start_time s1 < FreeTimeSlot.start_time s2).

Definition scored_in_values (slot : FreeTimeSlot.t) : Prop :=
  In (FreeTimeSlot.quality_score slot) score_values.

(** A document with the defaults of the model and a 25-minute minimum. *)
Definition default_document : UserPreferences.t :=
  UserPreferences.Build "09:00" "17:00" FLEXIBLE "10:00" "12:00" 25.

(** An entry the loop reads: it has both timestamps. *)
Definition timed (event : CalendarItem.t) : bool :=
  match CalendarItem.start_dateTime event, CalendarItem.end_dateTime event with
  | Some _, Some _ => true
  | _, _ => false
  end.

(** A timed entry on which the loop raises: a timestamp that
    [fromisoformat] rejects, or no ["id"]. *)
Definition unreadable (fromisoformat : string -> option datetime)
    (event : CalendarItem.t) : Prop :=
  exists start_text end_text,
    CalendarItem.start_dateTime event = Some start_text
    /\ CalendarItem.end_dateTime event = Some end_text
    /\ (fromisoformat (str_replace "Z" "+00:00" start_text) = None
        \/ fromisoformat (str_replace "Z" "+00:00" end_text) = None
        \/ CalendarItem.id event = None).

(** An entry that blocks time: its transparency is missing or "opaque". *)
Definition opaque (event : CalendarItem.t) : bool :=
  String.eqb (default "opaque"%string (CalendarItem.transparency event)) "opaque".

(** The event built from a timed entry. *)
Definition converted (fromisoformat : string -> option datetime)
    (event : CalendarItem.t) (e : CalendarEvent.t) : Prop :=
  CalendarItem.id event = Some (CalendarEvent.event_id e)
  /\ CalendarEvent.title e
     = default "Untitled Event"%string (CalendarItem.summary event)
  /\ (exists start_text,
        CalendarItem.start_dateTime event = Some start_text
        /\ fromisoformat (str_replace "Z" "+00:00" start_text)
           = Some (CalendarEvent.start_time e))
  /\ (exists end_text,
        CalendarItem.end_dateTime event = Some end_text
        /\ fromisoformat (str_replace "Z" "+00:00" end_text)
           = Some (CalendarEvent.end_time e))
  /\ CalendarEvent.is_busy e = opaque event
  /\ CalendarEvent.event_type e
     = _categorize_event (default EmptyString (CalendarItem.summary event)).

(** A stand-in for [datetime.fromisoformat] that reads two timestamps. *)
Definition sample_fromisoformat (text : string) : option datetime :=
  if String.eqb text "2025-07-26T12:00:00+00:00" then Some (at_time 0 12 0)
  else if String.eqb text "2025-07-26T13:00:00+00:00" then Some (at_time 0 13 0)
  else None.

Definition lunch_item : CalendarItem.t :=
  CalendarItem.Build (Some "ev1"%string) (Some "Team lunch"%string)
    (Some "2025-07-26T12:00:00Z"%string) (Some "2025-07-26T13:00:00Z"%string)
    None.

Definition transparent_item : CalendarItem.t :=
  CalendarItem.Build (Some "ev2"%string) (Some "Reminder"%string)
    (Some "2025-07-26T12:00:00Z"%string) (Some "2025-07-26T13:00:00Z"%string)
    (Some "transparent"%string).

Definition all_day_item : CalendarItem.t :=
  CalendarItem.Build (Some "ev3"%string) (Some "Holiday"%string) None None None.

Definition broken_item : CalendarItem.t :=
  CalendarItem.Build (Some "ev4"%string) None
    (Some "yesterday"%string) (Some "2025-07-26T13:00:00Z"%string) None.




(** * Properties *)

(** ** Scoring: effective hours and totality *)

Lemma default_work_start : hour_of_time_string "09:00" = Ok 9.
Proof. reflexivity. Qed.
Lemma default_work_end : hour_of_time_string "17:00" = Ok 17.
Proof. reflexivity. Qed.
Lemma default_peak_start : hour_of_time_string "10:00" = Ok 10.
Proof. reflexivity. Qed.
Lemma default_peak_end : hour_of_time_string "12:00" = Ok 12.
Proof. reflexivity. Qed.

Lemma work_hours_eq (d : gmap string pyval) :
  work_hours d =
  pair_hours (dict_get d "work_start_time" (PStr "09:00"))
             (dict_get d "work_start_hour" (PInt 9))
             (dict_get d "work_end_time" (PStr "17:00"))
             (dict_get d "work_end_hour" (PInt 17)) 9 17.
Proof. reflexivity. Qed.

Lemma peak_hours_eq (d : gmap string pyval) :
  peak_hours d =
  pair_hours (dict_get d "peak_hours_start" (PStr "10:00"))
             (dict_get d "peak_hours_start" (PInt 10))
             (dict_get d "peak_hours_end" (PStr "12:00"))
             (dict_get d "peak_hours_end" (PInt 12)) 10 12.
Proof. reflexivity. Qed.

Lemma hour_of_time_string_no_other (s : string) :
  hour_of_time_string s <> Raise TypeError.
Proof.
  unfold hour_of_time_string, getitem, int_of_str.
  repeat match goal with
         | |- context [match ?x with _ => _ end] => destruct x; simpl
         end; congruence.
Qed.

Lemma field_hour_int (raw old : pyval) :
  (match raw with PStr _ => true | _ => is_int old end) = true ->
  match field_hour raw old with
  | Ok v => is_int v = true
  | Raise e => e <> TypeError
  end.
Proof.
  destruct raw as [s| |]; simpl; intros H; try exact H.
  pose proof (hour_of_time_string_no_other s) as Hn.
  destruct (hour_of_time_string s) as [h|e]; simpl; [reflexivity|congruence].
Qed.

Lemma pair_hours_int (raw1 old1 raw2 old2 : pyval) (d1 d2 : Z) :
  (match raw1 with PStr _ => true | _ => is_int old1 end) = true ->
  (match raw2 with PStr _ => true | _ => is_int old2 end) = true ->
  exists a b, pair_hours raw1 old1 raw2 old2 d1 d2 = Ok (PInt a, PInt b).
Proof.
  intros H1 H2. unfold pair_hours.
  pose proof (field_hour_int raw1 old1 H1) as F1.
  pose proof (field_hour_int raw2 old2 H2) as F2.
  destruct (field_hour raw1 old1) as [[ |a| ]|[]]; simpl in *;
    try discriminate; try congruence; eauto.
  destruct (field_hour raw2 old2) as [[ |b| ]|[]]; simpl in *;
    try discriminate; try congruence; eauto.
Qed.

Lemma hour_entry_ok_dict_get (d : gmap string pyval) (k k' : string) (s : string) (n : Z) :
  hour_entry_ok d k k' = true ->
  (match dict_get d k (PStr s) with
   | PStr _ => true
   | _ => is_int (dict_get d k' (PInt n))
   end) = true.
Proof.
  unfold hour_entry_ok, int_or_missing, dict_get.
  destruct (d !! k) as [[ | | ]|]; simpl; try reflexivity;
    destruct (d !! k') as [[ | | ]|]; simpl; congruence.
Qed.

Lemma well_typed_hours (d : gmap string pyval) :
  preferences_well_typed d = true ->
  exists ws we ps pe,
    work_hours d = Ok (PInt ws, PInt we) /\ peak_hours d = Ok (PInt ps, PInt pe).
Proof.
  unfold preferences_well_typed. rewrite !andb_true_iff.
  intros [[[H1 H2] H3] H4].
  destruct (pair_hours_int _ _ _ _ 9 17
              (hour_entry_ok_dict_get d _ _ "09:00" 9 H1)
              (hour_entry_ok_dict_get d _ _ "17:00" 17 H2)) as (ws & we & Hw).
  destruct (pair_hours_int _ _ _ _ 10 12
              (hour_entry_ok_dict_get d _ _ "10:00" 10 H3)
              (hour_entry_ok_dict_get d _ _ "12:00" 12 H4)) as (ps & pe & Hp).
  exists ws, we, ps, pe. rewrite work_hours_eq, peak_hours_eq. auto.
Qed.

Lemma py_chain_le_lt_int (a h b : Z) :
  py_chain_le_lt (PInt a) h (PInt b) = Ok ((a <=? h) && (h <? b)).
Proof. unfold py_chain_le_lt; simpl. destruct (a <=? h); reflexivity. Qed.

(** Comparing the exact quotient with a positive integer is comparing its
    truncation with it. *)
Lemma total_minutes_ge_truncated (d : timedelta) (n : Z) :
  0 < n -> total_minutes_ge d n = (n <=? int_total_minutes d).
Proof.
  intros Hn. unfold total_minutes_ge, int_total_minutes, microseconds_per_minute.
  pose proof (Z.quot_rem' d 60000000) as Hqr.
  destruct (Z_le_gt_dec 0 d) as [Hd|Hd].
  - pose proof (Z.rem_bound_pos d 60000000 Hd ltac:(lia)) as Hr.
    apply eq_true_iff_eq. rewrite Z.leb_le, Z.leb_le. lia.
  - pose proof (Z.rem_bound_pos (- d) 60000000 ltac:(lia) ltac:(lia)) as Hr.
    rewrite Z.rem_opp_l in Hr by lia.
    apply eq_true_iff_eq. rewrite Z.leb_le, Z.leb_le. lia.
Qed.

Lemma scoreSlot_spec_unit (h ws we ps pe : Z) (style : WorkStyle) (minutes : Z) :
  in_unit_interval (scoreSlot_spec h ws we ps pe style minutes).
Proof.
  unfold scoreSlot_spec, in_unit_interval.
  destruct ((ws <=? h) && (h <? we)), ((ps <=? h) && (h <? pe)),
    (is_morning style && (h <? 12)), (is_evening style && (15 <=? h)),
    ((h <? 7) || (20 <? h)), (60 <=? minutes), (120 <=? minutes);
    vm_compute; split; reflexivity.
Qed.

(** The style test of the source against the enumerated style. *)
Lemma style_bonus_eq (d : gmap string pyval) (h : Z) (q : float) :
  (if pyval_eqb (dict_get d "work_style" (PStr "flexible")) (PStr "morning_person")
      && (h <? 12)
   then (q + 0.2)%float
   else if pyval_eqb (dict_get d "work_style" (PStr "flexible")) (PStr "evening_person")
           && (h >=? 15)
   then (q + 0.2)%float
   else q)
  = (if is_morning (workStyle d) && (h <? 12) then (q + 0.2)%float
     else if is_evening (workStyle d) && (15 <=? h) then (q + 0.2)%float
     else q).
Proof.
  rewrite Z.geb_leb. unfold workStyle.
  destruct (dict_get d "work_style" (PStr "flexible")) as [s|n|]; simpl; try reflexivity.
  destruct (String.eqb s "morning_person") eqn:Em; simpl.
  - apply String.eqb_eq in Em. subst s. simpl.
    destruct (h <? 12); reflexivity.
  - destruct (String.eqb s "evening_person"); reflexivity.
Qed.

Lemma quality_eq_spec (start_time end_time : datetime) (d : gmap string pyval)
    (ws we ps pe : Z) :
  work_hours d = Ok (PInt ws, PInt we) ->
  peak_hours d = Ok (PInt ps, PInt pe) ->
  _calculate_slot_quality start_time end_time d =
  Ok (scoreSlot_spec (hour start_time) ws we ps pe (workStyle d)
        (int_total_minutes (end_time - start_time))).
Proof.
  intros Hw Hp. unfold _calculate_slot_quality.
  rewrite Hw; simpl bind. rewrite py_chain_le_lt_int; simpl bind.
  rewrite Hp; simpl bind. rewrite py_chain_le_lt_int; simpl bind.
  rewrite style_bonus_eq, Z.gtb_ltb.
  rewrite !total_minutes_ge_truncated by lia.
  unfold scoreSlot_spec. f_equal.
  assert (Hex : is_morning (workStyle d) && is_evening (workStyle d) = false)
    by (destruct (workStyle d); reflexivity).
  destruct (is_morning (workStyle d)), (is_evening (workStyle d));
    try discriminate Hex;
    destruct ((ws <=? hour start_time) && (hour start_time <? we)),
      ((ps <=? hour start_time) && (hour start_time <? pe)),
      (hour start_time <? 12), (15 <=? hour start_time),
      ((hour start_time <? 7) || (20 <? hour start_time)),
      (60 <=? int_total_minutes (end_time - start_time)),
      (120 <=? int_total_minutes (end_time - start_time));
    reflexivity.
Qed.

Lemma quality_total (start_time end_time : datetime) (d : gmap string pyval) :
  preferences_well_typed d = true ->
  exists q, _calculate_slot_quality start_time end_time d = Ok q
            /\ in_unit_interval q.
Proof.
  intros Hwt. destruct (well_typed_hours d Hwt) as (ws & we & ps & pe & Hw & Hp).
  eexists. split; [apply (quality_eq_spec _ _ _ _ _ _ _ Hw Hp)|].
  apply scoreSlot_spec_unit.
Qed.

(** ** The walk as a list of gaps *)

Lemma mapM_app {A B : Type} (f : A -> result B) (l1 l2 : list A) :
  mapM f (l1 ++ l2) =
  (let* bs1 := mapM f l1 in let* bs2 := mapM f l2 in Ok (bs1 ++ bs2)).
Proof.
  induction l1 as [|a l1 IH]; simpl.
  - destruct (mapM f l2); reflexivity.
  - destruct (f a) as [b|e]; simpl; [|reflexivity].
    rewrite IH. destruct (mapM f l1) as [bs1|e]; simpl; [|reflexivity].
    destruct (mapM f l2); reflexivity.
Qed.

Lemma mapM_Ok_Forall2 {A B : Type} (f : A -> result B) (l : list A) (bs : list B) :
  mapM f l = Ok bs -> Forall2 (fun a b => f a = Ok b) l bs.
Proof.
  revert bs. induction l as [|a l IH]; simpl; intros bs H.
  - injection H as <-. constructor.
  - destruct (f a) as [b|e] eqn:Ea; simpl in H; [|discriminate].
    destruct (mapM f l) as [bs'|e] eqn:El; simpl in H; [|discriminate].
    injection H as <-. constructor; auto.
Qed.

Lemma mapM_total {A B : Type} (f : A -> result B) (l : list A) :
  (forall a, In a l -> exists b, f a = Ok b) -> exists bs, mapM f l = Ok bs.
Proof.
  induction l as [|a l IH]; simpl; intros H; [eauto|].
  destruct (H a (or_introl eq_refl)) as [b ->].
  destruct IH as [bs ->]; [intros; apply H; auto|]. simpl. eauto.
Qed.

Lemma append_gap_eq (current_time bound : datetime) (d : gmap string pyval)
    (m : Z) (free_slots : list FreeTimeSlot.t) :
  append_gap current_time bound d m free_slots =
  (let* new := mapM (slot_of_gap d) (gap_if_kept current_time bound m) in
   Ok (free_slots ++ new)).
Proof.
  unfold append_gap, gap_if_kept, keeps_gap.
  destruct (current_time <? bound); simpl; [|now rewrite app_nil_r].
  destruct (int_total_minutes (bound - current_time) >=? m); simpl;
    [|now rewrite app_nil_r].
  unfold slot_of_gap; simpl.
  destruct (_calculate_slot_quality current_time bound d); reflexivity.
Qed.

Lemma for_events_kept_gaps (d : gmap string pyval) (m : Z) (end_time : datetime)
    (events : list CalendarEvent.t) :
  forall (current_time : datetime) (free_slots : list FreeTimeSlot.t),
    (let* (current_time', free_slots') :=
       for_events events d m current_time free_slots in
     append_gap current_time' end_time d m free_slots')
    = (let* new := mapM (slot_of_gap d) (kept_gaps events m end_time current_time) in
       Ok (free_slots ++ new)).
Proof.
  induction events as [|event rest IH]; intros current_time free_slots.
  - simpl. apply append_gap_eq.
  - cbn [for_events kept_gaps]. rewrite append_gap_eq, mapM_app.
    destruct (mapM (slot_of_gap d)
                (gap_if_kept current_time (CalendarEvent.start_time event) m))
      as [new1|e]; simpl; [|reflexivity].
    rewrite IH.
    destruct (mapM (slot_of_gap d) (kept_gaps rest m end_time _)) as [new2|e];
      simpl; [|reflexivity].
    now rewrite app_assoc.
Qed.

(** The function is the scoring of the kept gaps, in order. *)
Lemma calculate_free_time_slots_eq (events : list CalendarEvent.t)
    (start_time end_time : datetime) (d : gmap string pyval) (m : Z) :
  calculate_free_time_slots events start_time end_time d m =
  mapM (slot_of_gap d) (kept_gaps (busy_events events) m end_time start_time).
Proof.
  unfold calculate_free_time_slots. rewrite for_events_kept_gaps.
  destruct (mapM _ _); reflexivity.
Qed.

Lemma calculate_free_time_slots_total (events : list CalendarEvent.t)
    (start_time end_time : datetime) (d : gmap string pyval) (m : Z) :
  preferences_well_typed d = true ->
  exists slots, calculate_free_time_slots events start_time end_time d m = Ok slots.
Proof.
  intros Hwt. rewrite calculate_free_time_slots_eq.
  apply mapM_total. intros [s e] _. unfold slot_of_gap.
  destruct (quality_total s e d Hwt) as (q & Hq & _). simpl. rewrite Hq.
  simpl. eauto.
Qed.

Lemma slot_of_gap_Ok (d : gmap string pyval) (gap : datetime * datetime)
    (slot : FreeTimeSlot.t) :
  slot_of_gap d gap = Ok slot ->
  slot_bounds slot = gap
  /\ FreeTimeSlot.duration_minutes slot = int_total_minutes (snd gap - fst gap)
  /\ _calculate_slot_quality (fst gap) (snd gap) d
     = Ok (FreeTimeSlot.quality_score slot).
Proof.
  unfold slot_of_gap. destruct gap as [s e]; simpl.
  destruct (_calculate_slot_quality s e d) as [q|]; simpl; [|discriminate].
  intros H. injection H as <-. auto.
Qed.

Lemma slots_bounds (events : list CalendarEvent.t)
    (start_time end_time : datetime) (d : gmap string pyval) (m : Z)
    (slots : list FreeTimeSlot.t) :
  calculate_free_time_slots events start_time end_time d m = Ok slots ->
  map slot_bounds slots = kept_gaps (busy_events events) m end_time start_time.
Proof.
  rewrite calculate_free_time_slots_eq. intros H.
  apply mapM_Ok_Forall2 in H.
  induction H as [|gap slot gaps slots' Hs _ IH]; simpl; [reflexivity|].
  apply slot_of_gap_Ok in Hs as (-> & _). now rewrite IH.
Qed.

Lemma kept_gaps_kept (events : list CalendarEvent.t) (m : Z) (end_time : datetime) :
  forall current_time,
    Forall (fun gap => keeps_gap (fst gap) (snd gap) m = true)
      (kept_gaps events m end_time current_time).
Proof.
  assert (Hg : forall a b,
             Forall (fun gap => keeps_gap (fst gap) (snd gap) m = true)
               (gap_if_kept a b m)).
  { intros a b. unfold gap_if_kept.
    destruct (keeps_gap a b m) eqn:Hk; repeat constructor. exact Hk. }
  induction events as [|event rest IH]; intros current_time; simpl.
  - apply Hg.
  - apply Forall_app. split; [apply Hg|apply IH].
Qed.

Lemma slots_Forall_gap (events : list CalendarEvent.t)
    (start_time end_time : datetime) (d : gmap string pyval) (m : Z)
    (slots : list FreeTimeSlot.t) (P : FreeTimeSlot.t -> Prop) :
  calculate_free_time_slots events start_time end_time d m = Ok slots ->
  (forall gap slot, keeps_gap (fst gap) (snd gap) m = true ->
                    slot_of_gap d gap = Ok slot -> P slot) ->
  Forall P slots.
Proof.
  rewrite calculate_free_time_slots_eq. intros H HP.
  apply mapM_Ok_Forall2 in H.
  pose proof (kept_gaps_kept (busy_events events) m end_time start_time) as Hk.
  induction H as [|gap slot gaps slots' Hs _ IH]; constructor.
  - inversion Hk; subst. eapply HP; eauto.
  - apply IH. inversion Hk; subst. assumption.
Qed.



(** ** Sorting *)

Lemma insert_by_start_perm (x : CalendarEvent.t) (l : list CalendarEvent.t) :
  Permutation (insert_by_start x l) (x :: l).
Proof.
  induction l as [|y l IH]; simpl; [reflexivity|].
  destruct (CalendarEvent.start_time x <=? CalendarEvent.start_time y);
    [reflexivity|].
  rewrite IH. constructor.
Qed.

Lemma sort_by_start_perm (l : list CalendarEvent.t) :
  Permutation (sort_by_start l) l.
Proof.
  induction l as [|x l IH]; simpl; [reflexivity|].
  rewrite insert_by_start_perm. now constructor.
Qed.

Lemma filter_idem {A : Type} (f : A -> bool) (l : list A) :
  List.filter f (List.filter f l) = List.filter f l.
Proof.
  induction l as [|a l IH]; simpl; [reflexivity|].
  destruct (f a) eqn:Ha; simpl; [rewrite Ha, IH|]; auto.
Qed.

Lemma In_busy_events (x : CalendarEvent.t) (events : list CalendarEvent.t) :
  In x (busy_events events) <-> In x events /\ CalendarEvent.is_busy x = true.
Proof.
  unfold busy_events. rewrite <- filter_In. split; intros H.
  - eapply Permutation_in; [apply sort_by_start_perm|exact H].
  - eapply Permutation_in; [symmetry; apply sort_by_start_perm|exact H].
Qed.

(** C10: intervals with [is_busy = False] do not take part: the call on
    the whole list equals the call on the list without them. *)
Theorem C10_tentative_ignored (events : list CalendarEvent.t)
    (start_time end_time : datetime) (user_preferences : gmap string pyval)
    (minimum_slot_minutes : Z) :
  calculate_free_time_slots events start_time end_time user_preferences
    minimum_slot_minutes
  = calculate_free_time_slots (List.filter CalendarEvent.is_busy events)
      start_time end_time user_preferences minimum_slot_minutes.
Proof.
  unfold calculate_free_time_slots, busy_events. now rewrite filter_idem.
Qed.

(** ** An empty search range *)

Lemma kept_gaps_none (events : list CalendarEvent.t) (m : Z) (end_time : datetime) :
  forall current_time,
    end_time <= current_time ->
    Forall (fun e => CalendarEvent.start_time e <= current_time) events ->
    kept_gaps events m end_time current_time = [].
Proof.
  assert (Hg : forall a b, b <= a -> gap_if_kept a b m = []).
  { intros a b Hab. unfold gap_if_kept, keeps_gap.
    destruct (a <? b) eqn:E; [apply Z.ltb_lt in E; lia|reflexivity]. }
  induction events as [|event rest IH]; intros current_time Hend Hall; simpl.
  - now apply Hg.
  - inversion Hall as [|? ? Hx Hrest]; subst.
    rewrite Hg by exact Hx. simpl. apply IH; [lia|].
    eapply Forall_impl; [exact Hrest|]. simpl. intros; lia.
Qed.

(** C7 (amended): when [rangeStart = rangeEnd] and no busy interval starts
    after [rangeStart], the call returns the empty list. *)
Theorem C7_empty_range_no_later_event (events : list CalendarEvent.t)
    (start_time end_time : datetime) (user_preferences : gmap string pyval)
    (minimum_slot_minutes : Z) :
  start_time = end_time ->
  (forall e, In e events -> CalendarEvent.is_busy e = true ->
             CalendarEvent.start_time e <= start_time) ->
  calculate_free_time_slots events start_time end_time user_preferences
    minimum_slot_minutes = Ok [].
Proof.
  intros <- Hall. rewrite calculate_free_time_slots_eq.
  rewrite kept_gaps_none; [reflexivity|lia|].
  apply List.Forall_forall. intros e He.
  apply In_busy_events in He as [He Hb]. auto.
Qed.

(** ** Order of processing *)

Lemma insert_by_start_sorted (x : CalendarEvent.t) (l : list CalendarEvent.t) :
  StronglySorted start_le l -> StronglySorted start_le (insert_by_start x l).
Proof.
  induction l as [|y l IH]; simpl; intros Hs.
  - repeat constructor.
  - inversion Hs as [|? ? Hl Hy]; subst.
    destruct (CalendarEvent.start_time x <=? CalendarEvent.start_time y) eqn:E.
    + apply Z.leb_le in E. constructor; [exact Hs|].
      constructor; [exact E|].
      eapply List.Forall_impl; [|exact Hy]. unfold start_le. intros; lia.
    + apply Z.leb_gt in E. constructor; [auto|].
      eapply Permutation_Forall; [symmetry; apply insert_by_start_perm|].
      constructor; [unfold start_le; lia|exact Hy].
Qed.

Lemma sort_by_start_sorted (l : list CalendarEvent.t) :
  StronglySorted start_le (sort_by_start l).
Proof.
  induction l as [|x l IH]; simpl; [constructor|].
  now apply insert_by_start_sorted.
Qed.

Lemma insert_by_start_stable (k : datetime) (x : CalendarEvent.t)
    (l : list CalendarEvent.t) :
  List.filter (starts_at k) (insert_by_start x l)
  = List.filter (starts_at k) (x :: l).
Proof.
  induction l as [|y l IH]; [reflexivity|].
  cbn [insert_by_start].
  destruct (CalendarEvent.start_time x <=? CalendarEvent.start_time y) eqn:E;
    [reflexivity|].
  apply Z.leb_gt in E.
  cbn [List.filter] in *. rewrite IH. unfold starts_at.
  destruct (CalendarEvent.start_time x =? k) eqn:Ex; [|reflexivity].
  apply Z.eqb_eq in Ex.
  destruct (CalendarEvent.start_time y =? k) eqn:Ey; [|reflexivity].
  apply Z.eqb_eq in Ey. lia.
Qed.

Lemma sort_by_start_stable (k : datetime) (l : list CalendarEvent.t) :
  List.filter (starts_at k) (sort_by_start l) = List.filter (starts_at k) l.
Proof.
  induction l as [|x l IH]; [reflexivity|].
  cbn [sort_by_start]. rewrite insert_by_start_stable.
  cbn [List.filter]. now rewrite IH.
Qed.

Lemma filter_perm {A : Type} (f : A -> bool) (l1 l2 : list A) :
  Permutation l1 l2 -> Permutation (List.filter f l1) (List.filter f l2).
Proof.
  induction 1 as [|x l1 l2 _ IH|x y l|l1 l2 l3 _ IH1 _ IH2]; simpl.
  - constructor.
  - destruct (f x); [constructor|]; exact IH.
  - destruct (f x), (f y); try reflexivity. constructor.
  - etransitivity; eauto.
Qed.

Lemma busy_events_perm (l1 l2 : list CalendarEvent.t) :
  Permutation l1 l2 -> Permutation (busy_events l1) (busy_events l2).
Proof.
  intros H. unfold busy_events.
  rewrite !sort_by_start_perm. now apply filter_perm.
Qed.

Lemma strongly_sorted_app_inv {A : Type} (R : A -> A -> Prop)
    (l1 : list A) (x : A) (l2 : list A) :
  StronglySorted R (l1 ++ x :: l2) ->
  StronglySorted R (l1 ++ l2) /\ Forall (fun a => R a x) l1.
Proof.
  induction l1 as [|a l1 IH]; simpl; intros H.
  - inversion H; subst. split; [assumption|constructor].
  - inversion H as [|? ? Hs Ha]; subst.
    destruct (IH Hs) as [Hs' Hx].
    apply Forall_app in Ha as [Ha1 Ha2].
    inversion Ha2; subst.
    split; constructor; auto. apply Forall_app; auto.
Qed.

(** ** Events starting together commute *)

Lemma gap_if_kept_nil (a b : datetime) (m : Z) :
  b <= a -> gap_if_kept a b m = [].
Proof.
  intros Hab. unfold gap_if_kept, keeps_gap.
  destruct (a <? b) eqn:E; [apply Z.ltb_lt in E; lia|reflexivity].
Qed.

Lemma kept_gaps_swap (a x : CalendarEvent.t) (rest : list CalendarEvent.t)
    (m : Z) (end_time current_time : datetime) :
  CalendarEvent.start_time a = CalendarEvent.start_time x ->
  well_formed a -> well_formed x ->
  kept_gaps (a :: x :: rest) m end_time current_time
  = kept_gaps (x :: a :: rest) m end_time current_time.
Proof.
  unfold well_formed. intros Hax Ha Hx. cbn [kept_gaps].
  rewrite (gap_if_kept_nil (Z.max current_time (CalendarEvent.end_time a))
             (CalendarEvent.start_time x)) by lia.
  rewrite (gap_if_kept_nil (Z.max current_time (CalendarEvent.end_time x))
             (CalendarEvent.start_time a)) by lia.
  rewrite Hax.
  replace (Z.max (Z.max current_time (CalendarEvent.end_time a))
             (CalendarEvent.end_time x))
    with (Z.max (Z.max current_time (CalendarEvent.end_time x))
            (CalendarEvent.end_time a)) by lia.
  reflexivity.
Qed.

Lemma kept_gaps_move_front (x : CalendarEvent.t) (l1 l2 : list CalendarEvent.t)
    (m : Z) (end_time : datetime) :
  well_formed x ->
  Forall (fun a => CalendarEvent.start_time a = CalendarEvent.start_time x
                   /\ well_formed a) l1 ->
  forall current_time,
    kept_gaps (l1 ++ x :: l2) m end_time current_time
    = kept_gaps (x :: l1 ++ l2) m end_time current_time.
Proof.
  intros Hx. induction 1 as [|a l1 [Hax Ha] _ IH]; intros current_time;
    [reflexivity|].
  cbn [app]. rewrite <- (kept_gaps_swap a x) by auto.
  cbn [kept_gaps]. f_equal. rewrite IH. reflexivity.
Qed.

(** Two sorted arrangements of the same well-formed events give the same
    gaps. *)
Lemma kept_gaps_sorted_perm (m : Z) (end_time : datetime)
    (l1 : list CalendarEvent.t) :
  forall l2 current_time,
    StronglySorted start_le l1 -> StronglySorted start_le l2 ->
    Permutation l1 l2 -> Forall well_formed l1 ->
    kept_gaps l1 m end_time current_time = kept_gaps l2 m end_time current_time.
Proof.
  induction l1 as [|x l1 IH]; intros l2 current_time Hs1 Hs2 Hp Hwf.
  - apply Permutation_nil in Hp. now subst.
  - assert (Hin : In x l2) by (eapply Permutation_in; [exact Hp|now left]).
    apply in_split in Hin as (la & lb & ->).
    apply Permutation_cons_app_inv in Hp.
    destruct (strongly_sorted_app_inv _ _ _ _ Hs2) as [Hs2' Hla].
    inversion Hs1 as [|? ? Hs1' Hx1]; subst.
    inversion Hwf as [|? ? Hwx Hwf1]; subst.
    rewrite kept_gaps_move_front; [|exact Hwx|].
    + cbn [kept_gaps]. f_equal. apply IH; auto.
    + rewrite List.Forall_forall in *. intros a Ha.
      assert (Ha1 : In a l1).
      { eapply Permutation_in; [symmetry; exact Hp|].
        apply in_or_app. now left. }
      specialize (Hla a Ha). specialize (Hx1 a Ha1). specialize (Hwf1 a Ha1).
      unfold start_le in *. split; [lia|exact Hwf1].
Qed.

Lemma calculate_free_time_slots_perm (events1 events2 : list CalendarEvent.t)
    (start_time end_time : datetime) (d : gmap string pyval) (m : Z) :
  Permutation events1 events2 ->
  (forall e, In e events1 -> CalendarEvent.is_busy e = true -> well_formed e) ->
  calculate_free_time_slots events1 start_time end_time d m
  = calculate_free_time_slots events2 start_time end_time d m.
Proof.
  intros Hp Hwf. rewrite !calculate_free_time_slots_eq. f_equal.
  apply kept_gaps_sorted_perm.
  - apply sort_by_start_sorted.
  - apply sort_by_start_sorted.
  - now apply busy_events_perm.
  - apply List.Forall_forall. intros e He.
    apply In_busy_events in He as [He Hb]. auto.
Qed.

(** ** Merging overlapping busy intervals *)

(** An event that starts no later than the cursor only pushes the cursor,
    wherever the sort puts it. *)
Lemma kept_gaps_absorb (b : CalendarEvent.t) (m : Z) (end_time : datetime)
    (l : list CalendarEvent.t) :
  forall current_time,
    CalendarEvent.start_time b <= current_time ->
    kept_gaps (insert_by_start b l) m end_time current_time
    = kept_gaps l m end_time (Z.max current_time (CalendarEvent.end_time b)).
Proof.
  induction l as [|y l IH]; intros current_time Hb; cbn [insert_by_start].
  - cbn [kept_gaps]. now rewrite gap_if_kept_nil by lia.
  - destruct (CalendarEvent.start_time b <=? CalendarEvent.start_time y) eqn:E.
    + cbn [kept_gaps]. now rewrite (gap_if_kept_nil current_time) by lia.
    + apply Z.leb_gt in E. cbn [kept_gaps].
      rewrite !(gap_if_kept_nil _ (CalendarEvent.start_time y)) by lia.
      rewrite IH by lia. cbn [app]. f_equal. lia.
Qed.

Section Merge.
Variables a b merged : CalendarEvent.t.
Hypothesis overlap :
  CalendarEvent.start_time a <= CalendarEvent.start_time b
  <= CalendarEvent.end_time a.
Hypothesis merged_start :
  CalendarEvent.start_time merged
  = Z.min (CalendarEvent.start_time a) (CalendarEvent.start_time b).
Hypothesis merged_end :
  CalendarEvent.end_time merged
  = Z.max (CalendarEvent.end_time a) (CalendarEvent.end_time b).

Lemma kept_gaps_pair_merged (m : Z) (end_time : datetime)
    (l : list CalendarEvent.t) (current_time : datetime) :
  kept_gaps (a :: b :: l) m end_time current_time
  = kept_gaps (merged :: l) m end_time current_time.
Proof.
  cbn [kept_gaps].
  rewrite (gap_if_kept_nil _ (CalendarEvent.start_time b)) by lia.
  rewrite merged_start, merged_end, Z.min_l by lia.
  cbn [app]. do 2 f_equal. lia.
Qed.

Lemma kept_gaps_merge (m : Z) (end_time : datetime) (l : list CalendarEvent.t) :
  forall current_time,
    kept_gaps (insert_by_start a (insert_by_start b l)) m end_time current_time
    = kept_gaps (insert_by_start merged l) m end_time current_time.
Proof.
  assert (Hsm : CalendarEvent.start_time merged = CalendarEvent.start_time a)
    by (rewrite merged_start; lia).
  assert (Hab : (CalendarEvent.start_time a <=? CalendarEvent.start_time b) = true)
    by (apply Z.leb_le; lia).
  induction l as [|r l IH]; intros current_time; cbn [insert_by_start].
  - rewrite Hab. apply kept_gaps_pair_merged.
  - rewrite Hsm.
    destruct (CalendarEvent.start_time b <=? CalendarEvent.start_time r) eqn:Ebr.
    + apply Z.leb_le in Ebr. cbn [insert_by_start]. rewrite Hab.
      replace (CalendarEvent.start_time a <=? CalendarEvent.start_time r)
        with true by (symmetry; apply Z.leb_le; lia).
      apply kept_gaps_pair_merged.
    + apply Z.leb_gt in Ebr. cbn [insert_by_start].
      destruct (CalendarEvent.start_time a <=? CalendarEvent.start_time r) eqn:Ear.
      * cbn [kept_gaps].
        rewrite !(gap_if_kept_nil _ (CalendarEvent.start_time r)) by lia.
        rewrite kept_gaps_absorb by lia.
        rewrite Hsm, merged_end. cbn [app]. do 2 f_equal. lia.
      * cbn [kept_gaps]. f_equal. apply IH.
Qed.
End Merge.

(** C6: when two busy intervals [a] and [b] overlap
    ([a.start <= b.start <= a.end]), replacing them in the input by the one
    busy interval from [min(a.start, b.start)] to [max(a.end, b.end)] leaves
    the result of the call unchanged (busy intervals having
    [end >= start]). *)
Theorem C6_merge_overlapping (events events' rest : list CalendarEvent.t)
    (a b merged : CalendarEvent.t) (start_time end_time : datetime)
    (user_preferences : gmap string pyval) (minimum_slot_minutes : Z) :
  Permutation events (a :: b :: rest) ->
  Permutation events' (merged :: rest) ->
  CalendarEvent.is_busy a = true ->
  CalendarEvent.is_busy b = true ->
  CalendarEvent.is_busy merged = true ->
  (CalendarEvent.start_time a <= CalendarEvent.start_time b
     <= CalendarEvent.end_time a) ->
  CalendarEvent.start_time merged
    = Z.min (CalendarEvent.start_time a) (CalendarEvent.start_time b) ->
  CalendarEvent.end_time merged
    = Z.max (CalendarEvent.end_time a) (CalendarEvent.end_time b) ->
  (forall e, In e events -> CalendarEvent.is_busy e = true -> well_formed e) ->
  calculate_free_time_slots events start_time end_time user_preferences
    minimum_slot_minutes
  = calculate_free_time_slots events' start_time end_time user_preferences
      minimum_slot_minutes.
Proof.
  intros Hp Hp' Ha Hb Hm Hov Hms Hme Hwf.
  rewrite (calculate_free_time_slots_perm events (a :: b :: rest)) by auto.
  rewrite (calculate_free_time_slots_perm events' (merged :: rest)); [|auto|].
  - rewrite !calculate_free_time_slots_eq. f_equal.
    unfold busy_events. cbn [List.filter]. rewrite Ha, Hb, Hm.
    cbn [sort_by_start]. now apply kept_gaps_merge.
  - intros e He Hbe.
    apply (Permutation_in _ Hp') in He. destruct He as [<-|He].
    + unfold well_formed. rewrite Hms, Hme. lia.
    + apply Hwf; [|exact Hbe].
      eapply Permutation_in; [symmetry; exact Hp|]. right. now right.
Qed.

(** ** Order and disjointness of the returned slots *)

Lemma gap_if_kept_In (a b : datetime) (m : Z) (gap : datetime * datetime) :
  In gap (gap_if_kept a b m) -> gap = (a, b) /\ a < b.
Proof.
  unfold gap_if_kept, keeps_gap.
  destruct (a <? b) eqn:E; simpl; [|tauto].
  apply Z.ltb_lt in E.
  destruct (int_total_minutes (b - a) >=? m); simpl; [|tauto].
  intros [<-|[]]. auto.
Qed.

Lemma kept_gaps_after (m : Z) (end_time : datetime) (events : list CalendarEvent.t) :
  forall current_time gap,
    In gap (kept_gaps events m end_time current_time) ->
    current_time <= fst gap < snd gap.
Proof.
  induction events as [|event rest IH]; intros current_time gap; cbn [kept_gaps].
  - intros H. apply gap_if_kept_In in H as [-> H]. simpl. lia.
  - intros H. apply in_app_or in H as [H|H].
    + apply gap_if_kept_In in H as [-> H]. simpl. lia.
    + apply IH in H. lia.
Qed.

(** With well-formed events each kept gap ends before the next begins. *)
Lemma kept_gaps_chain (m : Z) (end_time : datetime) (events : list CalendarEvent.t) :
  Forall well_formed events ->
  forall current_time,
    StronglySorted (fun g1 g2 => snd g1 <= fst g2)
      (kept_gaps events m end_time current_time).
Proof.
  induction 1 as [|event rest Hwf _ IH]; intros current_time; cbn [kept_gaps].
  - unfold gap_if_kept. destruct (keeps_gap _ _ _); repeat constructor.
  - unfold gap_if_kept at 1.
    destruct (keeps_gap current_time (CalendarEvent.start_time event) m);
      cbn [app]; [|apply IH].
    constructor; [apply IH|].
    apply List.Forall_forall. intros g Hg. apply kept_gaps_after in Hg.
    unfold well_formed in Hwf. simpl. lia.
Qed.

(** With sorted events no kept gap meets an event. *)
Lemma kept_gaps_avoid (m : Z) (end_time : datetime) (events : list CalendarEvent.t) :
  StronglySorted start_le events ->
  forall current_time gap x,
    In gap (kept_gaps events m end_time current_time) -> In x events ->
    CalendarEvent.end_time x <= fst gap \/ snd gap <= CalendarEvent.start_time x.
Proof.
  induction 1 as [|event rest _ IH Hle]; intros current_time gap x Hg Hx;
    [contradiction|].
  cbn [kept_gaps] in Hg. apply in_app_or in Hg as [Hg|Hg].
  - apply gap_if_kept_In in Hg as [-> _]. right. simpl.
    destruct Hx as [<-|Hx]; [lia|].
    rewrite List.Forall_forall in Hle. apply (Hle x Hx).
  - destruct Hx as [<-|Hx].
    + apply kept_gaps_after in Hg. left. lia.
    + eapply IH; eauto.
Qed.

Lemma strongly_sorted_map {A B : Type} (R : B -> B -> Prop) (f : A -> B)
    (l : list A) :
  StronglySorted R (map f l) -> StronglySorted (fun a b => R (f a) (f b)) l.
Proof.
  induction l as [|a l IH]; simpl; intros H; [constructor|].
  inversion H as [|? ? Hs Hf]; subst. constructor; [auto|].
  rewrite List.Forall_forall in *. intros b Hb. apply Hf. now apply in_map.
Qed.

Lemma strongly_sorted_weaken {A : Type} (R R' : A -> A -> Prop) (l : list A) :
  (forall a b, In a l -> In b l -> R a b -> R' a b) ->
  StronglySorted R l -> StronglySorted R' l.
Proof.
  intros Himp H. induction H as [|a l _ IH Hf]; [constructor|].
  constructor.
  - apply IH. intros; apply Himp; simpl; auto.
  - rewrite List.Forall_forall in *. intros b Hb.
    apply Himp; simpl; auto.
Qed.

Lemma strongly_sorted_pairs {A : Type} (R : A -> A -> Prop) (l : list A) :
  StronglySorted R l -> ForallOrdPairs R l.
Proof.
  induction 1; constructor; auto.
Qed.

(** C8: when every busy interval has [end >= start], the returned slots
    are in strictly ascending order of start time, pairwise disjoint, and
    none of them meets a busy interval of the input. *)
Theorem C8_slots_ordered_disjoint_free (events : list CalendarEvent.t)
    (start_time end_time : datetime) (user_preferences : gmap string pyval)
    (minimum_slot_minutes : Z) :
  (forall e, In e events -> CalendarEvent.is_busy e = true -> well_formed e) ->
  preferences_well_typed user_preferences = true ->
  exists slots,
    calculate_free_time_slots events start_time end_time user_preferences
      minimum_slot_minutes = Ok slots
    /\ StronglySorted
         (fun s1 s2 => FreeTimeSlot.start_time s1 < FreeTimeSlot.start_time s2)
         slots
    /\ ForallOrdPairs
         (fun s1 s2 => ~ intersects (slot_bounds s1) (slot_bounds s2)) slots
    /\ (forall slot e,
          In slot slots -> In e events -> CalendarEvent.is_busy e = true ->
          ~ intersects (slot_bounds slot) (event_span e)).
Proof.
  intros Hwf Hwt.
  destruct (calculate_free_time_slots_total events start_time end_time
              user_preferences minimum_slot_minutes Hwt) as [slots Hs].
  exists slots. split; [exact Hs|].
  pose proof (slots_bounds _ _ _ _ _ _ Hs) as Hb.
  assert (Hpos : forall s, In s slots ->
                           FreeTimeSlot.start_time s < FreeTimeSlot.end_time s).
  { intros s Hin. apply (in_map slot_bounds) in Hin. rewrite Hb in Hin.
    apply kept_gaps_after in Hin. simpl in Hin. lia. }
  assert (Hchain : StronglySorted
                     (fun s1 s2 => FreeTimeSlot.end_time s1
                                   <= FreeTimeSlot.start_time s2) slots).
  { apply (strongly_sorted_map (fun g1 g2 => snd g1 <= fst g2) slot_bounds).
    rewrite Hb. apply kept_gaps_chain.
    apply List.Forall_forall. intros e He.
    apply In_busy_events in He as [He Hbe]. auto. }
  repeat split.
  - eapply strongly_sorted_weaken; [|exact Hchain].
    intros s1 s2 H1 _ H12. simpl in H12. specialize (Hpos s1 H1). lia.
  - apply strongly_sorted_pairs.
    eapply strongly_sorted_weaken; [|exact Hchain].
    intros s1 s2 _ _ H12 [t [Ht1 Ht2]]. simpl in *. lia.
  - intros slot e Hin He Hbe [t [Ht1 Ht2]].
    apply (in_map slot_bounds) in Hin. rewrite Hb in Hin.
    destruct (kept_gaps_avoid minimum_slot_minutes end_time (busy_events events)
                (sort_by_start_sorted _) start_time (slot_bounds slot) e Hin)
      as [H|H].
    + apply In_busy_events. auto.
    + simpl in *. lia.
    + simpl in *. lia.
Qed.

(** ** Permutations of the input *)

(** C9 (amended): the busy intervals are processed in the order of a
    stable sort on start (ascending; intervals of equal start keep their
    input order, end is not consulted), and two inputs that are permutations
    of each other, with busy intervals having [end >= start], give the same
    result. *)
Theorem C9_stable_sort_permutation_invariant (events1 events2 : list CalendarEvent.t)
    (start_time end_time : datetime) (user_preferences : gmap string pyval)
    (minimum_slot_minutes : Z) :
  Permutation events1 events2 ->
  (forall e, In e events1 -> CalendarEvent.is_busy e = true -> well_formed e) ->
  StronglySorted start_le (busy_events events1)
  /\ (forall k, List.filter (starts_at k) (busy_events events1)
                = List.filter (starts_at k)
                    (List.filter CalendarEvent.is_busy events1))
  /\ calculate_free_time_slots events1 start_time end_time user_preferences
       minimum_slot_minutes
     = calculate_free_time_slots events2 start_time end_time user_preferences
         minimum_slot_minutes.
Proof.
  intros Hp Hwf. repeat split.
  - apply sort_by_start_sorted.
  - intros k. apply sort_by_start_stable.
  - now apply calculate_free_time_slots_perm.
Qed.

(** C9, counterexample: of two busy intervals starting together, the one
    given first is processed first even when it ends later. *)
Lemma C9_counterexample :
  busy_events [long_meeting; short_meeting] = [long_meeting; short_meeting]
  /\ sort_by_start_then_end
       (List.filter CalendarEvent.is_busy [long_meeting; short_meeting])
     = [short_meeting; long_meeting]
  /\ busy_events [long_meeting; short_meeting]
     <> sort_by_start_then_end
          (List.filter CalendarEvent.is_busy [long_meeting; short_meeting]).
Proof.
  repeat split; try reflexivity.
  vm_compute. discriminate.
Qed.

Lemma C9_witness :
  Permutation [long_meeting; short_meeting] [short_meeting; long_meeting]
  /\ (forall e, In e [long_meeting; short_meeting] ->
                CalendarEvent.is_busy e = true -> well_formed e)
  /\ StronglySorted start_le (busy_events [long_meeting; short_meeting])
  /\ (forall k,
        List.filter (starts_at k) (busy_events [long_meeting; short_meeting])
        = List.filter (starts_at k)
            (List.filter CalendarEvent.is_busy [long_meeting; short_meeting]))
  /\ calculate_free_time_slots [long_meeting; short_meeting]
       (at_time 0 8 0) (at_time 0 17 0) default_preferences 30
     = calculate_free_time_slots [short_meeting; long_meeting]
         (at_time 0 8 0) (at_time 0 17 0) default_preferences 30.
Proof.
  assert (Hp : Permutation [long_meeting; short_meeting]
                 [short_meeting; long_meeting]) by apply perm_swap.
  assert (Hwf : forall e, In e [long_meeting; short_meeting] ->
                          CalendarEvent.is_busy e = true -> well_formed e).
  { intros e [<-|[<-|[]]] _; unfold well_formed; vm_compute; discriminate. }
  split; [exact Hp|]. split; [exact Hwf|].
  exact (C9_stable_sort_permutation_invariant
           [long_meeting; short_meeting] [short_meeting; long_meeting]
           (at_time 0 8 0) (at_time 0 17 0) default_preferences 30 Hp Hwf).
Defined.

(** ** Validation of the range and of the minimum *)

(** C2 (amended): the function validates neither the range nor the
    minimum; with a well-typed preference dictionary it returns a list of
    slots for every range and every minimum, in particular when
    [rangeStart <= rangeEnd] and the minimum is positive. *)
Theorem C2_never_fails (events : list CalendarEvent.t)
    (start_time end_time : datetime) (user_preferences : gmap string pyval)
    (minimum_slot_minutes : Z) :
  preferences_well_typed user_preferences = true ->
  exists slots,
    calculate_free_time_slots events start_time end_time user_preferences
      minimum_slot_minutes = Ok slots.
Proof. apply calculate_free_time_slots_total. Qed.

(** C2, counterexample: a range given backwards and a minimum of zero
    are both accepted. *)
Lemma C2_counterexample :
  at_time 0 17 0 > at_time 0 9 0
  /\ calculate_free_time_slots [] (at_time 0 17 0) (at_time 0 9 0)
       default_preferences 30 = Ok []
  /\ calculate_free_time_slots [] (at_time 0 9 0) (at_time 0 17 0)
       default_preferences 0
     = Ok [FreeTimeSlot.Build (at_time 0 9 0) (at_time 0 17 0) 480 1%float].
Proof. repeat split; vm_compute; reflexivity. Qed.

Lemma C2_witness :
  preferences_well_typed default_preferences = true
  /\ exists slots,
       calculate_free_time_slots [] (at_time 0 17 0) (at_time 0 9 0)
         default_preferences (-5) = Ok slots.
Proof.
  split; [reflexivity|].
  apply (C2_never_fails [] (at_time 0 17 0) (at_time 0 9 0)
           default_preferences (-5)).
  reflexivity.
Defined.

(** C7, counterexample: with [rangeStart = rangeEnd] at 09:00 and a busy
    interval from 12:00 to 13:00 the gap before the interval is returned. *)
Lemma C7_counterexample :
  calculate_free_time_slots [meeting "lunch" (at_time 0 12 0) (at_time 0 13 0)]
    (at_time 0 9 0) (at_time 0 9 0) default_preferences 30
  = Ok [FreeTimeSlot.Build (at_time 0 9 0) (at_time 0 12 0) 180 1%float].
Proof. vm_compute. reflexivity. Qed.

Lemma C7_witness :
  at_time 0 9 0 = at_time 0 9 0
  /\ calculate_free_time_slots [meeting "early" (at_time 0 7 0) (at_time 0 8 0)]
       (at_time 0 9 0) (at_time 0 9 0) default_preferences 30 = Ok [].
Proof.
  split; [reflexivity|].
  apply (C7_empty_range_no_later_event
           [meeting "early" (at_time 0 7 0) (at_time 0 8 0)]
           (at_time 0 9 0) (at_time 0 9 0) default_preferences 30 eq_refl).
  intros e [<-|[]] _. vm_compute. discriminate.
Defined.

(** ** The scenario of the specification *)

Lemma hour_at_time (day h m : Z) :
  0 <= h < 24 -> 0 <= m < 60 -> hour (at_time day h m) = h.
Proof.
  intros Hh Hm. unfold hour, at_time, microseconds_per_hour, microseconds_per_minute.
  assert (Hq : ((day * 24 + h) * 60 + m) * 60000000 / 3600000000 = day * 24 + h).
  { symmetry.
    apply (Z.div_unique_pos _ 3600000000 (day * 24 + h) (m * 60000000)); lia. }
  rewrite Hq. symmetry. apply (Z.mod_unique_pos _ 24 day h); lia.
Qed.

Lemma gap_if_kept_yes (a b : datetime) (m : Z) :
  a < b -> m <= int_total_minutes (b - a) -> gap_if_kept a b m = [(a, b)].
Proof.
  intros Hab Hm. unfold gap_if_kept, keeps_gap.
  rewrite (proj2 (Z.ltb_lt a b) Hab), Z.geb_leb, (proj2 (Z.leb_le _ _) Hm).
  reflexivity.
Qed.

Lemma at_time_diff (day h1 m1 h2 m2 : Z) :
  at_time day h2 m2 - at_time day h1 m1
  = ((h2 - h1) * 60 + (m2 - m1)) * microseconds_per_minute.
Proof. unfold at_time. ring. Qed.

Lemma int_total_minutes_exact (n : Z) :
  int_total_minutes (n * microseconds_per_minute) = n.
Proof.
  unfold int_total_minutes, microseconds_per_minute.
  apply Z.quot_mul. discriminate.
Qed.

(** C5: range 09:00 to 17:00 of one day, one busy interval 12:00 to
    13:00, a minimum of 30 minutes and the default preferences (work 9 to
    17, peak 10 to 12, flexible) give exactly the slots 09:00 to 12:00
    (180 minutes, score 1.0) and 13:00 to 17:00 (240 minutes, score 1.0),
    in this order. *)
Theorem C5_scenario (day : Z) (event_id title event_type : string)
    (user_preferences : gmap string pyval) :
  work_hours user_preferences = Ok (PInt 9, PInt 17) ->
  peak_hours user_preferences = Ok (PInt 10, PInt 12) ->
  workStyle user_preferences = FLEXIBLE ->
  calculate_free_time_slots
    [CalendarEvent.Build event_id title (at_time day 12 0) (at_time day 13 0)
       true event_type]
    (at_time day 9 0) (at_time day 17 0) user_preferences 30
  = Ok [FreeTimeSlot.Build (at_time day 9 0) (at_time day 12 0) 180 1%float;
        FreeTimeSlot.Build (at_time day 13 0) (at_time day 17 0) 240 1%float].
Proof.
  intros Hw Hp Hstyle.
  rewrite calculate_free_time_slots_eq.
  unfold busy_events. cbn [List.filter CalendarEvent.is_busy sort_by_start
                             insert_by_start kept_gaps
                             CalendarEvent.start_time CalendarEvent.end_time].
  assert (H1 : int_total_minutes (at_time day 12 0 - at_time day 9 0) = 180)
    by (rewrite at_time_diff; apply int_total_minutes_exact).
  assert (H2 : int_total_minutes (at_time day 17 0 - at_time day 13 0) = 240)
    by (rewrite at_time_diff; apply int_total_minutes_exact).
  rewrite (gap_if_kept_yes (at_time day 9 0) (at_time day 12 0))
    by (rewrite ?H1; unfold at_time, microseconds_per_minute; lia).
  replace (Z.max (at_time day 9 0) (at_time day 13 0)) with (at_time day 13 0)
    by (unfold at_time, microseconds_per_minute; lia).
  rewrite (gap_if_kept_yes (at_time day 13 0) (at_time day 17 0))
    by (rewrite ?H2; unfold at_time, microseconds_per_minute; lia).
  cbn [app mapM]. unfold slot_of_gap. cbn [fst snd].
  rewrite !(quality_eq_spec _ _ _ _ _ _ _ Hw Hp), Hstyle, H1, H2.
  rewrite !hour_at_time by lia.
  reflexivity.
Qed.

Lemma C5_witness :
  work_hours default_preferences = Ok (PInt 9, PInt 17)
  /\ peak_hours default_preferences = Ok (PInt 10, PInt 12)
  /\ workStyle default_preferences = FLEXIBLE
  /\ calculate_free_time_slots
       [meeting "lunch" (at_time 0 12 0) (at_time 0 13 0)]
       (at_time 0 9 0) (at_time 0 17 0) default_preferences 30
     = Ok [FreeTimeSlot.Build (at_time 0 9 0) (at_time 0 12 0) 180 1%float;
           FreeTimeSlot.Build (at_time 0 13 0) (at_time 0 17 0) 240 1%float].
Proof.
  split; [reflexivity|]. split; [reflexivity|]. split; [reflexivity|].
  exact (C5_scenario 0 "lunch" "lunch" "meeting" default_preferences
           eq_refl eq_refl eq_refl).
Defined.

(** ** Reading the time-of-day preferences *)

Lemma pair_hours_paired (s1 s2 : string) (old1 old2 : pyval) (d1 d2 : Z) :
  pair_hours (PStr s1) old1 (PStr s2) old2 d1 d2 = Ok (paired_hours s1 s2 d1 d2).
Proof.
  unfold pair_hours, paired_hours, field_hour.
  pose proof (hour_of_time_string_no_other s1) as N1.
  pose proof (hour_of_time_string_no_other s2) as N2.
  destruct (hour_of_time_string s1) as [h1|[]];
    destruct (hour_of_time_string s2) as [h2|[]];
    simpl; congruence.
Qed.

Lemma paired_hours_int (s1 s2 : string) (d1 d2 : Z) :
  exists a b, paired_hours s1 s2 d1 d2 = (PInt a, PInt b).
Proof.
  unfold paired_hours.
  destruct (hour_of_time_string s1); destruct (hour_of_time_string s2); eauto.
Qed.

Lemma digit_char_cases (P : ascii -> Prop) :
  P "0"%char -> P "1"%char -> P "2"%char -> P "3"%char -> P "4"%char ->
  P "5"%char -> P "6"%char -> P "7"%char -> P "8"%char -> P "9"%char ->
  forall d, (d < 10)%nat -> P (digit_char d).
Proof.
  intros H0 H1 H2 H3 H4 H5 H6 H7 H8 H9 d Hd.
  do 10 (destruct d as [|d]; [assumption|]). lia.
Qed.

Lemma int_of_two_digits (d1 d2 : nat) :
  (d1 < 10)%nat -> (d2 < 10)%nat ->
  int_of_str (String (digit_char d1) (String (digit_char d2) EmptyString))
  = Ok (Z.of_nat (10 * d1 + d2)).
Proof.
  intros H1 H2.
  do 10 (destruct d1 as [|d1];
         [do 10 (destruct d2 as [|d2]; [reflexivity|]); lia|]).
  lia.
Qed.

Lemma digit_char_not_sep (d : nat) :
  (d < 10)%nat ->
  Ascii.eqb (digit_char d) ":" = false /\ Ascii.eqb (digit_char d) "T" = false.
Proof.
  revert d.
  apply (digit_char_cases
           (fun c => Ascii.eqb c ":" = false /\ Ascii.eqb c "T" = false));
    split; reflexivity.
Qed.

Lemma str_split_nonempty (sep : ascii) (s : string) : str_split sep s <> [].
Proof.
  destruct s as [|c s]; simpl; [discriminate|].
  destruct (Ascii.eqb c sep); [discriminate|].
  destruct (str_split sep s); discriminate.
Qed.

Lemma first_colon_field (d1 d2 : nat) (rest : string) :
  (d1 < 10)%nat -> (d2 < 10)%nat ->
  getitem (str_split ":" (bare_time d1 d2 rest)) 0
  = Ok (String (digit_char d1) (String (digit_char d2) EmptyString)).
Proof.
  intros H1 H2. unfold bare_time. cbn [str_split].
  rewrite (proj1 (digit_char_not_sep d1 H1)), (proj1 (digit_char_not_sep d2 H2)).
  reflexivity.
Qed.

Lemma hour_of_bare_time (d1 d2 : nat) (rest : string) :
  (d1 < 10)%nat -> (d2 < 10)%nat -> str_contains "T" rest = false ->
  hour_of_time_string (bare_time d1 d2 rest) = Ok (Z.of_nat (10 * d1 + d2)).
Proof.
  intros H1 H2 Hrest. unfold hour_of_time_string.
  replace (str_contains "T" (bare_time d1 d2 rest)) with false.
  - rewrite first_colon_field by assumption. cbn [bind].
    now apply int_of_two_digits.
  - unfold bare_time. cbn [str_contains].
    rewrite (proj2 (digit_char_not_sep d1 H1)), (proj2 (digit_char_not_sep d2 H2)).
    change (Ascii.eqb ":" "T") with false. now rewrite Hrest.
Qed.

Lemma str_contains_append (c : ascii) (s t : string) :
  str_contains c (String.append s t) = str_contains c s || str_contains c t.
Proof.
  induction s as [|a s IH]; simpl; [reflexivity|].
  rewrite IH. now rewrite orb_assoc.
Qed.

Lemma str_split_append_sep (sep : ascii) (s t : string) :
  str_contains sep s = false ->
  str_split sep (String.append s (String sep t)) = s :: str_split sep t.
Proof.
  induction s as [|a s IH]; simpl; intros H.
  - now rewrite Ascii.eqb_refl.
  - apply orb_false_iff in H as [Ha Hs]. rewrite Ha, (IH Hs). reflexivity.
Qed.

(** The first ["T"]-separated field of a bare time keeps its hour. *)
Lemma first_T_field_bare_time (d1 d2 : nat) (rest : string) :
  (d1 < 10)%nat -> (d2 < 10)%nat ->
  exists rest', getitem (str_split "T" (bare_time d1 d2 rest)) 0
                = Ok (bare_time d1 d2 rest').
Proof.
  intros H1 H2. unfold bare_time. cbn [str_split].
  rewrite (proj2 (digit_char_not_sep d1 H1)), (proj2 (digit_char_not_sep d2 H2)).
  change (Ascii.eqb ":" "T") with false.
  pose proof (str_split_nonempty "T" rest) as Hne.
  destruct (str_split "T" rest) as [|w ws]; [contradiction|].
  exists w. reflexivity.
Qed.

Lemma hour_of_timestamp (date : string) (d1 d2 : nat) (rest : string) :
  (d1 < 10)%nat -> (d2 < 10)%nat -> str_contains "T" date = false ->
  hour_of_time_string (timestamp date d1 d2 rest) = Ok (Z.of_nat (10 * d1 + d2)).
Proof.
  intros H1 H2 Hdate. unfold hour_of_time_string, timestamp.
  rewrite str_contains_append. cbn [str_contains]. rewrite Ascii.eqb_refl.
  rewrite orb_true_r.
  rewrite str_split_append_sep by assumption.
  destruct (first_T_field_bare_time d1 d2 rest H1 H2) as [rest' Hf].
  unfold getitem in *. cbn [nth_error] in *.
  destruct (str_split "T" (bare_time d1 d2 rest)) as [|w ws]; [discriminate|].
  injection Hf as ->. cbn [bind].
  pose proof (first_colon_field d1 d2 rest' H1 H2) as Hc.
  unfold getitem in Hc. cbn [nth_error] in Hc.
  destruct (str_split ":" (bare_time d1 d2 rest')) as [|hh ws']; [discriminate|].
  injection Hc as ->. cbn [bind]. now apply int_of_two_digits.
Qed.

(** C3 (amended): the time-of-day fields are read in pairs.  A bare
    ["HH:MM[:SS]"] string and a timestamp ["...THH:MM..."] parse to the hour
    [HH]; when both values of a pair parse, each field takes its hour; when
    either does not, both fields of the pair take their defaults (9 and 17
    for the work hours, 10 and 12 for the peak hours); the other pair is not
    affected and the scoring does not fail. *)
Theorem C3_fields_fall_back_in_pairs (user_preferences : gmap string pyval)
    (work_start_time work_end_time peak_start_time peak_end_time : string) :
  dict_get user_preferences "work_start_time" (PStr "09:00") = PStr work_start_time ->
  dict_get user_preferences "work_end_time" (PStr "17:00") = PStr work_end_time ->
  dict_get user_preferences "peak_hours_start" (PStr "10:00") = PStr peak_start_time ->
  dict_get user_preferences "peak_hours_end" (PStr "12:00") = PStr peak_end_time ->
  work_hours user_preferences = Ok (paired_hours work_start_time work_end_time 9 17)
  /\ peak_hours user_preferences = Ok (paired_hours peak_start_time peak_end_time 10 12)
  /\ (forall start_time end_time,
        exists q, _calculate_slot_quality start_time end_time user_preferences = Ok q)
  /\ (forall d1 d2 rest,
        (d1 < 10)%nat -> (d2 < 10)%nat -> str_contains "T" rest = false ->
        hour_of_time_string (bare_time d1 d2 rest) = Ok (Z.of_nat (10 * d1 + d2)))
  /\ (forall date d1 d2 rest,
        (d1 < 10)%nat -> (d2 < 10)%nat -> str_contains "T" date = false ->
        hour_of_time_string (timestamp date d1 d2 rest)
        = Ok (Z.of_nat (10 * d1 + d2))).
Proof.
  intros Hws Hwe Hps Hpe.
  assert (Hw : work_hours user_preferences
               = Ok (paired_hours work_start_time work_end_time 9 17))
    by (rewrite work_hours_eq, Hws, Hwe; apply pair_hours_paired).
  assert (Hp : peak_hours user_preferences
               = Ok (paired_hours peak_start_time peak_end_time 10 12))
    by (rewrite peak_hours_eq, Hps, Hpe; apply pair_hours_paired).
  split; [exact Hw|]. split; [exact Hp|]. split; [|split].
  - intros start_time end_time.
    destruct (paired_hours_int work_start_time work_end_time 9 17) as (ws & we & Ew).
    destruct (paired_hours_int peak_start_time peak_end_time 10 12) as (ps & pe & Ep).
    rewrite Ew in Hw. rewrite Ep in Hp.
    eexists. apply (quality_eq_spec _ _ _ _ _ _ _ Hw Hp).
  - apply hour_of_bare_time.
  - apply hour_of_timestamp.
Qed.

(** C3, counterexample: with a work start of ["08:00"] and an unreadable
    work end, the start does not stay at 8: both work hours become the
    defaults, and a half-hour slot at 08:00 scores 0.5 instead of the 0.8
    that work hours 8 to 17 give. *)
Lemma C3_counterexample :
  hour_of_time_string "08:00" = Ok 8
  /\ hour_of_time_string "not-a-time" = Raise ValueError
  /\ work_hours preferences_bad_work_end = Ok (PInt 9, PInt 17)
  /\ work_hours preferences_bad_work_end
     <> Ok (PInt (independent_hour (PStr "08:00") 9),
            PInt (independent_hour (PStr "not-a-time") 17))
  /\ _calculate_slot_quality (at_time 0 8 0) (at_time 0 8 30)
       preferences_bad_work_end = Ok 0.5%float
  /\ scoreSlot_spec 8 (independent_hour (PStr "08:00") 9)
       (independent_hour (PStr "not-a-time") 17) 10 12 FLEXIBLE 30
     = 0.8%float.
Proof.
  repeat split; try reflexivity.
  vm_compute. discriminate.
Qed.

Lemma C3_witness :
  dict_get preferences_bad_work_end "work_start_time" (PStr "09:00") = PStr "08:00"
  /\ dict_get preferences_bad_work_end "work_end_time" (PStr "17:00")
     = PStr "not-a-time"
  /\ dict_get preferences_bad_work_end "peak_hours_start" (PStr "10:00")
     = PStr "10:00"
  /\ dict_get preferences_bad_work_end "peak_hours_end" (PStr "12:00")
     = PStr "12:00"
  /\ work_hours preferences_bad_work_end
     = Ok (paired_hours "08:00" "not-a-time" 9 17)
  /\ peak_hours preferences_bad_work_end = Ok (paired_hours "10:00" "12:00" 10 12).
Proof.
  split; [reflexivity|]. split; [reflexivity|].
  split; [reflexivity|]. split; [reflexivity|].
  pose proof (C3_fields_fall_back_in_pairs preferences_bad_work_end
                "08:00" "not-a-time" "10:00" "12:00"
                eq_refl eq_refl eq_refl eq_refl) as H.
  split; [exact (proj1 H)|exact (proj1 (proj2 H))].
Defined.

(** ** The theorems at sample inputs *)



Lemma C6_witness :
  Permutation [overlap_first; overlap_second] [overlap_first; overlap_second]
  /\ Permutation [overlap_merged] [overlap_merged]
  /\ (CalendarEvent.start_time overlap_first
      <= CalendarEvent.start_time overlap_second
      <= CalendarEvent.end_time overlap_first)
  /\ CalendarEvent.start_time overlap_merged
     = Z.min (CalendarEvent.start_time overlap_first)
         (CalendarEvent.start_time overlap_second)
  /\ CalendarEvent.end_time overlap_merged
     = Z.max (CalendarEvent.end_time overlap_first)
         (CalendarEvent.end_time overlap_second)
  /\ (forall e, In e [overlap_first; overlap_second] ->
                CalendarEvent.is_busy e = true -> well_formed e)
  /\ calculate_free_time_slots [overlap_first; overlap_second]
       (at_time 0 8 0) (at_time 0 17 0) default_preferences 30
     = calculate_free_time_slots [overlap_merged]
         (at_time 0 8 0) (at_time 0 17 0) default_preferences 30.
Proof.
  assert (Hov : CalendarEvent.start_time overlap_first
                <= CalendarEvent.start_time overlap_second
                <= CalendarEvent.end_time overlap_first)
    by (vm_compute; split; discriminate).
  assert (Hwf : forall e, In e [overlap_first; overlap_second] ->
                          CalendarEvent.is_busy e = true -> well_formed e).
  { intros e [<-|[<-|[]]] _; unfold well_formed; vm_compute; discriminate. }
  split; [apply Permutation_refl|]. split; [apply Permutation_refl|].
  split; [exact Hov|]. split; [reflexivity|]. split; [reflexivity|].
  split; [exact Hwf|].
  exact (C6_merge_overlapping [overlap_first; overlap_second] [overlap_merged] []
           overlap_first overlap_second overlap_merged
           (at_time 0 8 0) (at_time 0 17 0) default_preferences 30
           (Permutation_refl _) (Permutation_refl _) eq_refl eq_refl eq_refl
           Hov eq_refl eq_refl Hwf).
Defined.

Lemma C8_witness :
  (forall e, In e [meeting "lunch" (at_time 0 12 0) (at_time 0 13 0)] ->
             CalendarEvent.is_busy e = true -> well_formed e)
  /\ preferences_well_typed default_preferences = true
  /\ exists slots,
       calculate_free_time_slots
         [meeting "lunch" (at_time 0 12 0) (at_time 0 13 0)]
         (at_time 0 9 0) (at_time 0 17 0) default_preferences 30 = Ok slots
       /\ StronglySorted
            (fun s1 s2 => FreeTimeSlot.start_time s1 < FreeTimeSlot.start_time s2)
            slots
       /\ ForallOrdPairs
            (fun s1 s2 => ~ intersects (slot_bounds s1) (slot_bounds s2)) slots
       /\ (forall slot e,
             In slot slots ->
             In e [meeting "lunch" (at_time 0 12 0) (at_time 0 13 0)] ->
             CalendarEvent.is_busy e = true ->
             ~ intersects (slot_bounds slot) (event_span e)).
Proof.
  assert (Hwf : forall e,
             In e [meeting "lunch" (at_time 0 12 0) (at_time 0 13 0)] ->
             CalendarEvent.is_busy e = true -> well_formed e).
  { intros e [<-|[]] _. unfold well_formed. vm_compute. discriminate. }
  split; [exact Hwf|]. split; [reflexivity|].
  exact (C8_slots_ordered_disjoint_free
           [meeting "lunch" (at_time 0 12 0) (at_time 0 13 0)]
           (at_time 0 9 0) (at_time 0 17 0) default_preferences 30
           Hwf eq_refl).
Defined.

(** * Event categories *)

Lemma starts_with_spec (w s : string) :
  starts_with w s = true <-> exists post, s = String.append w post.
Proof.
  revert s. induction w as [|a w IH]; intros s; simpl.
  - split; [intros _; now exists s|reflexivity].
  - destruct s as [|b s]; simpl.
    + split; [discriminate|intros [post H]; discriminate].
    + rewrite andb_true_iff, IH. split.
      * intros [Hab [post ->]]. apply Ascii.eqb_eq in Hab. subst b.
        now exists post.
      * intros [post H]. injection H as -> ->. split.
        -- apply Ascii.eqb_refl.
        -- now exists post.
Qed.

(** [w in s] holds exactly when [s] is [pre ++ w ++ post]. *)
Lemma str_in_spec (w s : string) :
  str_in w s = true
  <-> exists pre post, s = String.append pre (String.append w post).
Proof.
  induction s as [|b s IH].
  - cbn [str_in]. rewrite orb_false_r, starts_with_spec. split.
    + intros [post H]. now exists EmptyString, post.
    + intros (pre & post & H). destruct pre as [|c pre]; [|discriminate].
      now exists post.
  - cbn [str_in]. rewrite orb_true_iff, starts_with_spec, IH. split.
    + intros [[post H]|(pre & post & H)].
      * now exists EmptyString, post.
      * exists (String b pre), post. simpl. now rewrite H.
    + intros (pre & post & H). destruct pre as [|c pre].
      * left. now exists post.
      * right. simpl in H. injection H as _ H. now exists pre, post.
Qed.

Lemma str_lower_append (s t : string) :
  str_lower (String.append s t) = String.append (str_lower s) (str_lower t).
Proof. induction s as [|c s IH]; simpl; [reflexivity|now rewrite IH]. Qed.

Lemma char_lower_idem (c : ascii) : char_lower (char_lower c) = char_lower c.
Proof. destruct c as [[] [] [] [] [] [] [] []]; reflexivity. Qed.

Lemma str_lower_idem (s : string) : str_lower (str_lower s) = str_lower s.
Proof.
  induction s as [|c s IH]; simpl; [reflexivity|].
  now rewrite char_lower_idem, IH.
Qed.

Lemma str_lower_length (s : string) :
  String.length (str_lower s) = String.length s.
Proof. induction s as [|c s IH]; simpl; [reflexivity|now rewrite IH]. Qed.

Lemma append_length (s t : string) :
  String.length (String.append s t) = (String.length s + String.length t)%nat.
Proof. induction s as [|c s IH]; simpl; [reflexivity|now rewrite IH]. Qed.

Lemma any_word_in_spec (words : list string) (s : string) :
  any_word_in words s = true
  <-> exists word pre post,
        In word words /\ s = String.append pre (String.append word post).
Proof.
  unfold any_word_in. rewrite existsb_exists. split.
  - intros (word & Hin & H). apply str_in_spec in H as (pre & post & H).
    now exists word, pre, post.
  - intros (word & pre & post & Hin & H). exists word. split; [exact Hin|].
    apply str_in_spec. now exists pre, post.
Qed.

(** X1: the category of a title, in terms of the words its lower-case
    form contains: "meeting" exactly when it contains a meeting word;
    "personal" exactly when it contains a personal word and no meeting
    word; and so on down the list, "other" exactly when it contains none of
    the words. *)
Theorem categorize_event_characterised (title : string) :
  (_categorize_event title = "meeting"%string <-> mentions meeting_words title)
  /\ (_categorize_event title = "personal"%string
      <-> ~ mentions meeting_words title /\ mentions personal_words title)
  /\ (_categorize_event title = "appointment"%string
      <-> ~ mentions meeting_words title /\ ~ mentions personal_words title
          /\ mentions appointment_words title)
  /\ (_categorize_event title = "focus_time"%string
      <-> ~ mentions meeting_words title /\ ~ mentions personal_words title
          /\ ~ mentions appointment_words title /\ mentions focus_words title)
  /\ (_categorize_event title = "other"%string
      <-> ~ mentions meeting_words title /\ ~ mentions personal_words title
          /\ ~ mentions appointment_words title
          /\ ~ mentions focus_words title).
Proof.
  unfold _categorize_event, mentions.
  pose proof (any_word_in_spec meeting_words (str_lower title)) as Hm.
  pose proof (any_word_in_spec personal_words (str_lower title)) as Hp.
  pose proof (any_word_in_spec appointment_words (str_lower title)) as Ha.
  pose proof (any_word_in_spec focus_words (str_lower title)) as Hf.
  destruct (any_word_in meeting_words (str_lower title));
    destruct (any_word_in personal_words (str_lower title));
    destruct (any_word_in appointment_words (str_lower title));
    destruct (any_word_in focus_words (str_lower title));
    rewrite <- ?Hm, <- ?Hp, <- ?Ha, <- ?Hf;
    repeat split; intros; try discriminate; try reflexivity;
    repeat match goal with
           | H : _ /\ _ |- _ => destruct H
           | H : ~ (true = true) |- _ => exfalso; apply H; reflexivity
           | |- ~ (false = true) => discriminate
           end; try discriminate.
Qed.

(** X2: a title that contains one of the meeting words anywhere, in any
    letter case and even inside a longer word, is a meeting, whatever else
    it contains. *)
Theorem categorize_event_meeting_word_anywhere (pre word post : string) :
  In (str_lower word) meeting_words ->
  _categorize_event (String.append pre (String.append word post))
  = "meeting"%string.
Proof.
  intros Hin. unfold _categorize_event.
  replace (any_word_in meeting_words
             (str_lower (String.append pre (String.append word post))))
    with true; [reflexivity|].
  symmetry. apply any_word_in_spec.
  exists (str_lower word), (str_lower pre), (str_lower post).
  split; [exact Hin|]. now rewrite !str_lower_append.
Qed.

Lemma categorize_event_meeting_word_anywhere_witness :
  In (str_lower "CALL") meeting_words
  /\ _categorize_event (String.append "Re" (String.append "CALL" " the dentist"))
     = "meeting"%string.
Proof.
  assert (H : In (str_lower "CALL") meeting_words) by (right; left; reflexivity).
  split; [exact H|].
  exact (categorize_event_meeting_word_anywhere "Re" "CALL" " the dentist" H).
Defined.

Lemma any_word_in_short (words : list string) (s : string) (n : nat) :
  Forall (fun word => (n <= String.length word)%nat) words ->
  (String.length s < n)%nat -> any_word_in words s = false.
Proof.
  intros Hlen Hs. destruct (any_word_in words s) eqn:E; [|reflexivity].
  apply any_word_in_spec in E as (word & pre & post & Hin & ->).
  rewrite List.Forall_forall in Hlen. specialize (Hlen word Hin).
  rewrite !append_length in Hs. lia.
Qed.

(** X3: a title of fewer than four characters is categorised "other". *)
Theorem categorize_event_short_title (title : string) :
  (String.length title < 4)%nat -> _categorize_event title = "other"%string.
Proof.
  intros Hlen.
  assert (Hl : (String.length (str_lower title) < 4)%nat)
    by (rewrite str_lower_length; exact Hlen).
  unfold _categorize_event.
  rewrite (any_word_in_short meeting_words _ 4)
    by (first [exact Hl|repeat constructor; simpl; lia]).
  rewrite (any_word_in_short personal_words _ 4)
    by (first [exact Hl|repeat constructor; simpl; lia]).
  rewrite (any_word_in_short appointment_words _ 4)
    by (first [exact Hl|repeat constructor; simpl; lia]).
  rewrite (any_word_in_short focus_words _ 4)
    by (first [exact Hl|repeat constructor; simpl; lia]).
  reflexivity.
Qed.

Lemma categorize_event_short_title_witness :
  (String.length "Gym" < 4)%nat /\ _categorize_event "Gym" = "other"%string.
Proof.
  assert (H : (String.length "Gym" < 4)%nat) by (simpl; lia).
  split; [exact H|]. exact (categorize_event_short_title "Gym" H).
Defined.

(** * More on the free slots *)




Lemma kept_gaps_complete (m : Z) (end_time t : datetime)
    (events : list CalendarEvent.t) :
  forall current_time,
    current_time <= t < end_time ->
    (forall e, In e events ->
               ~ (CalendarEvent.start_time e <= t < CalendarEvent.end_time e)) ->
    (exists gap, In gap (kept_gaps events m end_time current_time)
                 /\ fst gap <= t < snd gap)
    \/ (exists a b,
          a <= t < b /\ Z.quot (b - a) 60000000 < m
          /\ (a = current_time
              \/ exists e, In e events /\ a = CalendarEvent.end_time e)
          /\ (b = end_time
              \/ exists e, In e events /\ b = CalendarEvent.start_time e)).
Proof.
  assert (Hcand : forall a b, a <= t < b ->
            In (a, b) (gap_if_kept a b m) \/ Z.quot (b - a) 60000000 < m).
  { intros a b Hab. unfold gap_if_kept, keeps_gap.
    rewrite (proj2 (Z.ltb_lt a b)) by lia. rewrite Z.geb_leb.
    unfold int_total_minutes, microseconds_per_minute.
    destruct (m <=? Z.quot (b - a) 60000000) eqn:E; simpl.
    - left. now left.
    - right. apply Z.leb_gt in E. exact E. }
  induction events as [|e rest IH]; intros current_time Ht Hfree; cbn [kept_gaps].
  - destruct (Hcand current_time end_time Ht) as [H|H].
    + left. exists (current_time, end_time). split; [exact H|exact Ht].
    + right. exists current_time, end_time. auto.
  - destruct (Z_lt_le_dec t (CalendarEvent.start_time e)) as [Hlt|Hge].
    + destruct (Hcand current_time (CalendarEvent.start_time e)) as [H|H]; [lia| |].
      * left. exists (current_time, CalendarEvent.start_time e).
        split; [apply in_or_app; now left|simpl; lia].
      * right. exists current_time, (CalendarEvent.start_time e).
        repeat split; try lia; auto.
        right. exists e. split; [now left|reflexivity].
    + pose proof (Hfree e (or_introl eq_refl)) as He.
      destruct (IH (Z.max current_time (CalendarEvent.end_time e)))
        as [(gap & Hin & Hg)|(a & b & Hab & Hshort & Ha & Hb)].
      * lia.
      * intros e' He'. apply Hfree. now right.
      * left. exists gap. split; [apply in_or_app; now right|exact Hg].
      * right. exists a, b. repeat split; try lia.
        -- destruct Ha as [Ha|(e' & He' & Ha)].
           ++ destruct (Z.max_spec current_time (CalendarEvent.end_time e))
                as [[_ Hmax]|[_ Hmax]].
              ** right. exists e. split; [now left|lia].
              ** left. lia.
           ++ right. exists e'. split; [now right|exact Ha].
        -- destruct Hb as [Hb|(e' & He' & Hb)]; [now left|].
           right. exists e'. split; [now right|exact Hb].
Qed.

(** X5: no free time is missed except in gaps shorter than the minimum:
    an instant of the range that no busy interval covers lies in a returned
    slot, or in a gap (from the range start or the end of a busy interval,
    to the range end or the start of a busy interval) of fewer whole
    minutes than the minimum. *)
Theorem free_slots_cover_free_time (events : list CalendarEvent.t)
    (start_time end_time : datetime) (user_preferences : gmap string pyval)
    (minimum_slot_minutes : Z) (slots : list FreeTimeSlot.t) (t : datetime) :
  calculate_free_time_slots events start_time end_time user_preferences
    minimum_slot_minutes = Ok slots ->
  start_time <= t < end_time ->
  (forall e, In e events -> CalendarEvent.is_busy e = true ->
             ~ (CalendarEvent.start_time e <= t < CalendarEvent.end_time e)) ->
  (exists slot, In slot slots
                /\ FreeTimeSlot.start_time slot <= t < FreeTimeSlot.end_time slot)
  \/ (exists a b,
        a <= t < b /\ Z.quot (b - a) 60000000 < minimum_slot_minutes
        /\ (a = start_time
            \/ exists e, In e events /\ CalendarEvent.is_busy e = true
                         /\ a = CalendarEvent.end_time e)
        /\ (b = end_time
            \/ exists e, In e events /\ CalendarEvent.is_busy e = true
                         /\ b = CalendarEvent.start_time e)).
Proof.
  intros Hs Ht Hfree.
  pose proof (slots_bounds _ _ _ _ _ _ Hs) as Hb.
  destruct (kept_gaps_complete minimum_slot_minutes end_time t
              (busy_events events) start_time Ht)
    as [(gap & Hin & Hg)|(a & b & Hab & Hshort & Ha & Hbd)].
  - intros e He. apply In_busy_events in He as [He Hbusy]. auto.
  - left. rewrite <- Hb in Hin. apply in_map_iff in Hin as (slot & <- & Hin).
    exists slot. split; [exact Hin|exact Hg].
  - right. exists a, b. repeat split; try lia.
    + destruct Ha as [Ha|(e & He & Ha)]; [now left|].
      apply In_busy_events in He as [He Hbusy]. right. now exists e.
    + destruct Hbd as [Hbd|(e & He & Hbd)]; [now left|].
      apply In_busy_events in He as [He Hbusy]. right. now exists e.
Qed.

Lemma free_slots_cover_free_time_witness :
  calculate_free_time_slots [meeting "lunch" (at_time 0 12 0) (at_time 0 13 0)]
    (at_time 0 9 0) (at_time 0 17 0) default_preferences 30
  = Ok [FreeTimeSlot.Build (at_time 0 9 0) (at_time 0 12 0) 180 1%float;
        FreeTimeSlot.Build (at_time 0 13 0) (at_time 0 17 0) 240 1%float]
  /\ (at_time 0 9 0 <= at_time 0 14 0 < at_time 0 17 0)
  /\ ((exists slot,
         In slot [FreeTimeSlot.Build (at_time 0 9 0) (at_time 0 12 0) 180 1%float;
                  FreeTimeSlot.Build (at_time 0 13 0) (at_time 0 17 0) 240 1%float]
         /\ FreeTimeSlot.start_time slot <= at_time 0 14 0
            < FreeTimeSlot.end_time slot)
      \/ (exists a b,
            a <= at_time 0 14 0 < b /\ Z.quot (b - a) 60000000 < 30
            /\ (a = at_time 0 9 0
                \/ exists e,
                     In e [meeting "lunch" (at_time 0 12 0) (at_time 0 13 0)]
                     /\ CalendarEvent.is_busy e = true
                     /\ a = CalendarEvent.end_time e)
            /\ (b = at_time 0 17 0
                \/ exists e,
                     In e [meeting "lunch" (at_time 0 12 0) (at_time 0 13 0)]
                     /\ CalendarEvent.is_busy e = true
                     /\ b = CalendarEvent.start_time e))).
Proof.
  assert (Hs : calculate_free_time_slots
                 [meeting "lunch" (at_time 0 12 0) (at_time 0 13 0)]
                 (at_time 0 9 0) (at_time 0 17 0) default_preferences 30
               = Ok [FreeTimeSlot.Build (at_time 0 9 0) (at_time 0 12 0) 180 1%float;
                     FreeTimeSlot.Build (at_time 0 13 0) (at_time 0 17 0) 240 1%float])
    by reflexivity.
  assert (Ht : at_time 0 9 0 <= at_time 0 14 0 < at_time 0 17 0)
    by (vm_compute; split; [discriminate|reflexivity]).
  split; [exact Hs|]. split; [exact Ht|].
  apply (free_slots_cover_free_time _ _ _ _ _ _ _ Hs Ht).
  intros e [<-|[]] _. vm_compute. intros [_ H]. discriminate H.
Defined.

Lemma kept_gaps_boundaries (m : Z) (end_time : datetime)
    (events : list CalendarEvent.t) :
  forall current_time gap,
    In gap (kept_gaps events m end_time current_time) ->
    (fst gap = current_time
     \/ exists e, In e events /\ fst gap = CalendarEvent.end_time e)
    /\ (snd gap = end_time
        \/ exists e, In e events /\ snd gap = CalendarEvent.start_time e).
Proof.
  induction events as [|e rest IH]; intros current_time gap Hin;
    cbn [kept_gaps] in Hin.
  - apply gap_if_kept_In in Hin as [-> _]. simpl. auto.
  - apply in_app_or in Hin as [Hin|Hin].
    + apply gap_if_kept_In in Hin as [-> _]. simpl. split; [now left|].
      right. exists e. split; [now left|reflexivity].
    + apply IH in Hin as [Ha Hb]. split.
      * destruct Ha as [Ha|(e' & He' & Ha)].
        -- destruct (Z.max_spec current_time (CalendarEvent.end_time e))
             as [[_ Hmax]|[_ Hmax]].
           ++ right. exists e. split; [now left|lia].
           ++ left. lia.
        -- right. exists e'. split; [now right|exact Ha].
      * destruct Hb as [Hb|(e' & He' & Hb)]; [now left|].
        right. exists e'. split; [now right|exact Hb].
Qed.

Lemma slots_boundaries (events : list CalendarEvent.t)
    (start_time end_time : datetime) (d : gmap string pyval) (m : Z)
    (slots : list FreeTimeSlot.t) (slot : FreeTimeSlot.t) :
  calculate_free_time_slots events start_time end_time d m = Ok slots ->
  In slot slots ->
  start_time <= FreeTimeSlot.start_time slot
  /\ (FreeTimeSlot.start_time slot = start_time
      \/ exists e, In e events /\ CalendarEvent.is_busy e = true
                   /\ FreeTimeSlot.start_time slot = CalendarEvent.end_time e)
  /\ (FreeTimeSlot.end_time slot = end_time
      \/ exists e, In e events /\ CalendarEvent.is_busy e = true
                   /\ FreeTimeSlot.end_time slot = CalendarEvent.start_time e).
Proof.
  intros Hs Hin.
  pose proof (slots_bounds _ _ _ _ _ _ Hs) as Hb.
  apply (in_map slot_bounds) in Hin. rewrite Hb in Hin.
  pose proof (kept_gaps_after _ _ _ _ _ Hin) as Hafter.
  apply kept_gaps_boundaries in Hin as [Ha Hbd]. simpl in *.
  split; [lia|]. split.
  - destruct Ha as [Ha|(e & He & Ha)]; [now left|].
    apply In_busy_events in He as [He Hbusy]. right. now exists e.
  - destruct Hbd as [Hbd|(e & He & Hbd)]; [now left|].
    apply In_busy_events in He as [He Hbusy]. right. now exists e.
Qed.

(** X6: every returned slot starts at the range start or at the end of a
    busy interval, never before the range start, and ends at the range end
    or at the start of a busy interval. *)
Theorem free_slot_boundaries (events : list CalendarEvent.t)
    (start_time end_time : datetime) (user_preferences : gmap string pyval)
    (minimum_slot_minutes : Z) (slots : list FreeTimeSlot.t)
    (slot : FreeTimeSlot.t) :
  calculate_free_time_slots events start_time end_time user_preferences
    minimum_slot_minutes = Ok slots ->
  In slot slots ->
  start_time <= FreeTimeSlot.start_time slot
  /\ (FreeTimeSlot.start_time slot = start_time
      \/ exists e, In e events /\ CalendarEvent.is_busy e = true
                   /\ FreeTimeSlot.start_time slot = CalendarEvent.end_time e)
  /\ (FreeTimeSlot.end_time slot = end_time
      \/ exists e, In e events /\ CalendarEvent.is_busy e = true
                   /\ FreeTimeSlot.end_time slot = CalendarEvent.start_time e).
Proof. apply slots_boundaries. Qed.

Lemma free_slot_boundaries_witness :
  calculate_free_time_slots [meeting "lunch" (at_time 0 12 0) (at_time 0 13 0)]
    (at_time 0 9 0) (at_time 0 9 0) default_preferences 30
  = Ok [FreeTimeSlot.Build (at_time 0 9 0) (at_time 0 12 0) 180 1%float]
  /\ at_time 0 9 0 <= at_time 0 9 0
  /\ (at_time 0 12 0 = at_time 0 9 0
      \/ exists e, In e [meeting "lunch" (at_time 0 12 0) (at_time 0 13 0)]
                   /\ CalendarEvent.is_busy e = true
                   /\ at_time 0 12 0 = CalendarEvent.start_time e).
Proof.
  assert (Hs : calculate_free_time_slots
                 [meeting "lunch" (at_time 0 12 0) (at_time 0 13 0)]
                 (at_time 0 9 0) (at_time 0 9 0) default_preferences 30
               = Ok [FreeTimeSlot.Build (at_time 0 9 0) (at_time 0 12 0) 180 1%float])
    by reflexivity.
  split; [exact Hs|].
  pose proof (free_slot_boundaries _ _ _ _ _ _
                (FreeTimeSlot.Build (at_time 0 9 0) (at_time 0 12 0) 180 1%float)
                Hs (or_introl eq_refl)) as (H1 & _ & H3).
  split; [exact H1|exact H3].
Defined.

(** X7: when no busy interval starts after the range end, every returned
    slot lies inside the range. *)
Theorem free_slots_inside_range (events : list CalendarEvent.t)
    (start_time end_time : datetime) (user_preferences : gmap string pyval)
    (minimum_slot_minutes : Z) (slots : list FreeTimeSlot.t) :
  calculate_free_time_slots events start_time end_time user_preferences
    minimum_slot_minutes = Ok slots ->
  (forall e, In e events -> CalendarEvent.is_busy e = true ->
             CalendarEvent.start_time e <= end_time) ->
  Forall (fun slot => start_time <= FreeTimeSlot.start_time slot
                      /\ FreeTimeSlot.end_time slot <= end_time) slots.
Proof.
  intros Hs Hin. apply List.Forall_forall. intros slot Hslot.
  destruct (slots_boundaries _ _ _ _ _ _ slot Hs Hslot)
    as (H1 & _ & [H3|(e & He & Hb & H3)]).
  - split; [exact H1|lia].
  - split; [exact H1|]. rewrite H3. now apply Hin.
Qed.

Lemma free_slots_inside_range_witness :
  calculate_free_time_slots [meeting "lunch" (at_time 0 12 0) (at_time 0 13 0)]
    (at_time 0 9 0) (at_time 0 17 0) default_preferences 30
  = Ok [FreeTimeSlot.Build (at_time 0 9 0) (at_time 0 12 0) 180 1%float;
        FreeTimeSlot.Build (at_time 0 13 0) (at_time 0 17 0) 240 1%float]
  /\ Forall (fun slot => at_time 0 9 0 <= FreeTimeSlot.start_time slot
                         /\ FreeTimeSlot.end_time slot <= at_time 0 17 0)
       [FreeTimeSlot.Build (at_time 0 9 0) (at_time 0 12 0) 180 1%float;
        FreeTimeSlot.Build (at_time 0 13 0) (at_time 0 17 0) 240 1%float].
Proof.
  assert (Hs : calculate_free_time_slots
                 [meeting "lunch" (at_time 0 12 0) (at_time 0 13 0)]
                 (at_time 0 9 0) (at_time 0 17 0) default_preferences 30
               = Ok [FreeTimeSlot.Build (at_time 0 9 0) (at_time 0 12 0) 180 1%float;
                     FreeTimeSlot.Build (at_time 0 13 0) (at_time 0 17 0) 240 1%float])
    by reflexivity.
  split; [exact Hs|].
  apply (free_slots_inside_range _ _ _ _ _ _ Hs).
  intros e [<-|[]] _. vm_compute. discriminate.
Defined.

Lemma kept_gaps_length (m : Z) (end_time : datetime)
    (events : list CalendarEvent.t) :
  forall current_time,
    (length (kept_gaps events m end_time current_time) <= length events + 1)%nat.
Proof.
  assert (Hg : forall a b, (length (gap_if_kept a b m) <= 1)%nat).
  { intros a b. unfold gap_if_kept. destruct (keeps_gap a b m); simpl; lia. }
  induction events as [|e rest IH]; intros current_time; cbn [kept_gaps].
  - simpl. apply Hg.
  - rewrite length_app. cbn [length].
    specialize (Hg current_time (CalendarEvent.start_time e)).
    specialize (IH (Z.max current_time (CalendarEvent.end_time e))). lia.
Qed.

(** X8: there is at most one returned slot more than there are busy
    intervals in the input. *)
Theorem free_slots_count (events : list CalendarEvent.t)
    (start_time end_time : datetime) (user_preferences : gmap string pyval)
    (minimum_slot_minutes : Z) (slots : list FreeTimeSlot.t) :
  calculate_free_time_slots events start_time end_time user_preferences
    minimum_slot_minutes = Ok slots ->
  (length slots
   <= length (List.filter CalendarEvent.is_busy events) + 1)%nat.
Proof.
  intros Hs. pose proof (slots_bounds _ _ _ _ _ _ Hs) as Hb.
  rewrite <- (length_map slot_bounds), Hb.
  rewrite <- (Permutation_length
                (sort_by_start_perm (List.filter CalendarEvent.is_busy events))).
  apply kept_gaps_length.
Qed.

Lemma free_slots_count_witness :
  calculate_free_time_slots [meeting "lunch" (at_time 0 12 0) (at_time 0 13 0)]
    (at_time 0 9 0) (at_time 0 17 0) default_preferences 30
  = Ok [FreeTimeSlot.Build (at_time 0 9 0) (at_time 0 12 0) 180 1%float;
        FreeTimeSlot.Build (at_time 0 13 0) (at_time 0 17 0) 240 1%float]
  /\ (2 <= length (List.filter CalendarEvent.is_busy
                     [meeting "lunch" (at_time 0 12 0) (at_time 0 13 0)]) + 1)%nat.
Proof.
  assert (Hs : calculate_free_time_slots
                 [meeting "lunch" (at_time 0 12 0) (at_time 0 13 0)]
                 (at_time 0 9 0) (at_time 0 17 0) default_preferences 30
               = Ok [FreeTimeSlot.Build (at_time 0 9 0) (at_time 0 12 0) 180 1%float;
                     FreeTimeSlot.Build (at_time 0 13 0) (at_time 0 17 0) 240 1%float])
    by reflexivity.
  split; [exact Hs|].
  exact (free_slots_count _ _ _ _ _ _ Hs).
Defined.

(** * More on the score *)

(** X9: lengthening a slot never lowers its score: with the same start
    and a later end the score is at least as high. *)
Theorem quality_monotone_in_end (start_time end_time1 end_time2 : datetime)
    (user_preferences : gmap string pyval) :
  preferences_well_typed user_preferences = true ->
  end_time1 <= end_time2 ->
  exists q1 q2,
    _calculate_slot_quality start_time end_time1 user_preferences = Ok q1
    /\ _calculate_slot_quality start_time end_time2 user_preferences = Ok q2
    /\ PrimFloat.leb q1 q2 = true.
Proof.
  intros Hwt Hle.
  destruct (well_typed_hours _ Hwt) as (ws & we & ps & pe & Hw & Hp).
  do 2 eexists. split; [apply (quality_eq_spec _ _ _ _ _ _ _ Hw Hp)|].
  split; [apply (quality_eq_spec _ _ _ _ _ _ _ Hw Hp)|].
  assert (Hm : int_total_minutes (end_time1 - start_time)
               <= int_total_minutes (end_time2 - start_time)).
  { unfold int_total_minutes, microseconds_per_minute.
    apply Z.quot_le_mono; lia. }
  unfold scoreSlot_spec.
  destruct (60 <=? int_total_minutes (end_time1 - start_time)) eqn:A1;
    destruct (60 <=? int_total_minutes (end_time2 - start_time)) eqn:A2;
    destruct (120 <=? int_total_minutes (end_time1 - start_time)) eqn:B1;
    destruct (120 <=? int_total_minutes (end_time2 - start_time)) eqn:B2;
    try (apply Z.leb_le in A1); try (apply Z.leb_gt in A1);
    try (apply Z.leb_le in A2); try (apply Z.leb_gt in A2);
    try (apply Z.leb_le in B1); try (apply Z.leb_gt in B1);
    try (apply Z.leb_le in B2); try (apply Z.leb_gt in B2);
    try lia;
    destruct ((ws <=? hour start_time) && (hour start_time <? we)),
      ((ps <=? hour start_time) && (hour start_time <? pe)),
      (is_morning (workStyle user_preferences) && (hour start_time <? 12)),
      (is_evening (workStyle user_preferences) && (15 <=? hour start_time)),
      ((hour start_time <? 7) || (20 <? hour start_time));
    reflexivity.
Qed.

Lemma quality_monotone_in_end_witness :
  preferences_well_typed default_preferences = true
  /\ at_time 0 9 30 <= at_time 0 10 0
  /\ exists q1 q2,
       _calculate_slot_quality (at_time 0 9 0) (at_time 0 9 30)
         default_preferences = Ok q1
       /\ _calculate_slot_quality (at_time 0 9 0) (at_time 0 10 0)
            default_preferences = Ok q2
       /\ PrimFloat.leb q1 q2 = true.
Proof.
  assert (H : at_time 0 9 30 <= at_time 0 10 0) by (vm_compute; discriminate).
  split; [reflexivity|]. split; [exact H|].
  exact (quality_monotone_in_end (at_time 0 9 0) (at_time 0 9 30) (at_time 0 10 0)
           default_preferences eq_refl H).
Defined.

Lemma scoreSlot_spec_in_values (h ws we ps pe : Z) (style : WorkStyle) (minutes : Z) :
  In (scoreSlot_spec h ws we ps pe style minutes) score_values.
Proof.
  unfold scoreSlot_spec.
  destruct ((ws <=? h) && (h <? we)), ((ps <=? h) && (h <? pe)),
    (is_morning style && (h <? 12)), (is_evening style && (15 <=? h)),
    ((h <? 7) || (20 <? h)), (60 <=? minutes), (120 <=? minutes);
    vm_compute; repeat (first [left; reflexivity | right]).
Qed.

(** X10: a slot scores below the caller's threshold of 0.3 in one case
    only: it starts before 7 or after 20, earns no work-hour, peak-hour or
    work-style bonus, and is shorter than 60 minutes.  A slot that starts
    from 7 to 20 scores at least 0.5. *)
Theorem quality_below_threshold_iff (start_time end_time : datetime)
    (user_preferences : gmap string pyval) (ws we ps pe : Z) :
  work_hours user_preferences = Ok (PInt ws, PInt we) ->
  peak_hours user_preferences = Ok (PInt ps, PInt pe) ->
  exists q,
    _calculate_slot_quality start_time end_time user_preferences = Ok q
    /\ PrimFloat.leb 0.3 q
       = negb (scores_below_threshold (hour start_time) ws we ps pe
                 (workStyle user_preferences)
                 (int_total_minutes (end_time - start_time)))
    /\ (7 <= hour start_time <= 20 -> PrimFloat.leb 0.5 q = true).
Proof.
  intros Hw Hp. eexists. split; [apply (quality_eq_spec _ _ _ _ _ _ _ Hw Hp)|].
  unfold scoreSlot_spec, scores_below_threshold. split.
  - destruct ((ws <=? hour start_time) && (hour start_time <? we)),
      ((ps <=? hour start_time) && (hour start_time <? pe)),
      (is_morning (workStyle user_preferences) && (hour start_time <? 12)),
      (is_evening (workStyle user_preferences) && (15 <=? hour start_time)),
      ((hour start_time <? 7) || (20 <? hour start_time)),
      (60 <=? int_total_minutes (end_time - start_time)) eqn:E60,
      (120 <=? int_total_minutes (end_time - start_time)) eqn:E120;
      try reflexivity;
      apply Z.leb_gt in E60; apply Z.leb_le in E120; lia.
  - intros Hh.
    replace ((hour start_time <? 7) || (20 <? hour start_time)) with false
      by (symmetry; apply orb_false_iff; split;
          [apply Z.ltb_ge|apply Z.ltb_ge]; lia).
    destruct ((ws <=? hour start_time) && (hour start_time <? we)),
      ((ps <=? hour start_time) && (hour start_time <? pe)),
      (is_morning (workStyle user_preferences) && (hour start_time <? 12)),
      (is_evening (workStyle user_preferences) && (15 <=? hour start_time)),
      (60 <=? int_total_minutes (end_time - start_time)),
      (120 <=? int_total_minutes (end_time - start_time));
      reflexivity.
Qed.

Lemma quality_below_threshold_iff_witness :
  work_hours default_preferences = Ok (PInt 9, PInt 17)
  /\ peak_hours default_preferences = Ok (PInt 10, PInt 12)
  /\ exists q,
       _calculate_slot_quality (at_time 0 5 0) (at_time 0 5 30)
         default_preferences = Ok q
       /\ PrimFloat.leb 0.3 q
          = negb (scores_below_threshold (hour (at_time 0 5 0)) 9 17 10 12
                    (workStyle default_preferences)
                    (int_total_minutes (at_time 0 5 30 - at_time 0 5 0)))
       /\ (7 <= hour (at_time 0 5 0) <= 20 -> PrimFloat.leb 0.5 q = true).
Proof.
  split; [reflexivity|]. split; [reflexivity|].
  exact (quality_below_threshold_iff (at_time 0 5 0) (at_time 0 5 30)
           default_preferences 9 17 10 12 eq_refl eq_refl).
Defined.

(** * The slots the caller hands on *)

Lemma insert_by_quality_perm (x : FreeTimeSlot.t) (l : list FreeTimeSlot.t) :
  Permutation (insert_by_quality x l) (x :: l).
Proof.
  induction l as [|y l IH]; simpl; [reflexivity|].
  destruct (PrimFloat.ltb _ _); [|reflexivity].
  rewrite IH. constructor.
Qed.

Lemma sort_by_quality_perm (l : list FreeTimeSlot.t) :
  Permutation (sort_by_quality l) l.
Proof.
  induction l as [|x l IH]; simpl; [reflexivity|].
  rewrite insert_by_quality_perm. now constructor.
Qed.

(** X11: the caller hands on exactly the computed slots that score at
    least 0.3, each as often as it was computed. *)
Theorem quality_slots_are_the_good_slots (free_slots : list FreeTimeSlot.t) :
  Permutation (quality_slots free_slots) (List.filter good_enough free_slots)
  /\ (forall slot,
        In slot (quality_slots free_slots)
        <-> In slot free_slots
            /\ PrimFloat.leb 0.3 (FreeTimeSlot.quality_score slot) = true).
Proof.
  assert (Hp : Permutation (quality_slots free_slots)
                 (List.filter good_enough free_slots))
    by apply sort_by_quality_perm.
  split; [exact Hp|]. intros slot.
  rewrite <- (filter_In good_enough). split; intros H.
  - eapply Permutation_in; [exact Hp|exact H].
  - eapply Permutation_in; [symmetry; exact Hp|exact H].
Qed.

Ltac cases_in H :=
  simpl in H; repeat (destruct H as [<-|H]); try contradiction.

(** On the possible scores, [<] is the order of the ranks, and the rank
    determines the score. *)
Lemma score_rank_order (a b : float) :
  In a score_values -> In b score_values ->
  PrimFloat.ltb a b = Nat.ltb (score_rank a) (score_rank b)
  /\ (score_rank a = score_rank b -> a = b).
Proof.
  intros Ha Hb. unfold score_values in Ha, Hb.
  cases_in Ha; cases_in Hb;
    (split; [reflexivity|intros H; first [reflexivity|discriminate H]]).
Qed.

Lemma insert_by_quality_sorted (x : FreeTimeSlot.t) (l : list FreeTimeSlot.t) :
  scored_in_values x -> Forall scored_in_values l ->
  Forall (fun z => FreeTimeSlot.start_time x < FreeTimeSlot.start_time z) l ->
  StronglySorted offered_before l ->
  StronglySorted offered_before (insert_by_quality x l).
Proof.
  intros Hx Hv Hstart Hs.
  induction l as [|y l IH]; simpl; [repeat constructor|].
  inversion Hv as [|? ? Hy Hv']; subst.
  inversion Hstart as [|? ? Hxy Hstart']; subst.
  inversion Hs as [|? ? Hs' Hyl]; subst.
  destruct (score_rank_order _ _ Hx Hy) as [Hlt Hinj].
  destruct (PrimFloat.ltb (FreeTimeSlot.quality_score x)
              (FreeTimeSlot.quality_score y)) eqn:E.
  - constructor; [now apply IH|].
    eapply Permutation_Forall; [symmetry; apply insert_by_quality_perm|].
    constructor; [now left|exact Hyl].
  - symmetry in Hlt. apply Nat.ltb_ge in Hlt.
    assert (Hxy' : offered_before x y).
    { destruct (score_rank_order _ _ Hy Hx) as [Hlt' Hinj'].
      destruct (Nat.eq_dec (score_rank (FreeTimeSlot.quality_score y))
                  (score_rank (FreeTimeSlot.quality_score x))) as [Heq|Hne].
      - right. split; [symmetry; now apply Hinj'|exact Hxy].
      - left. rewrite Hlt'. apply Nat.ltb_lt. lia. }
    constructor; [exact Hs|]. constructor; [exact Hxy'|].
    rewrite List.Forall_forall in *. intros z Hz.
    specialize (Hyl z Hz). specialize (Hv' z Hz). specialize (Hstart' z Hz).
    destruct (score_rank_order _ _ Hv' Hx) as [Hzx Hzx_inj].
    destruct (score_rank_order _ _ Hv' Hy) as [Hzy Hzy_inj].
    destruct (score_rank_order _ _ Hy Hv') as [_ Hyz_inj].
    destruct (Nat.eq_dec (score_rank (FreeTimeSlot.quality_score z))
                (score_rank (FreeTimeSlot.quality_score x))) as [Heq|Hne].
    + right. split; [symmetry; now apply Hzx_inj|exact Hstart'].
    + left. rewrite Hzx. apply Nat.ltb_lt.
      destruct Hyl as [Hyl|[Hyl _]].
      * rewrite Hzy in Hyl. apply Nat.ltb_lt in Hyl. lia.
      * rewrite Hyl in Hlt. lia.
Qed.

Lemma sort_by_quality_sorted (l : list FreeTimeSlot.t) :
  Forall scored_in_values l ->
  StronglySorted
    (fun s1 s2 => FreeTimeSlot.start_time s1 < FreeTimeSlot.start_time s2) l ->
  StronglySorted offered_before (sort_by_quality l).
Proof.
  induction l as [|x l IH]; simpl; intros Hv Hs; [constructor|].
  inversion Hv as [|? ? Hx Hv']; subst.
  inversion Hs as [|? ? Hs' Hxl]; subst.
  apply insert_by_quality_sorted; auto.
  - eapply Permutation_Forall; [symmetry; apply sort_by_quality_perm|exact Hv'].
  - eapply Permutation_Forall; [symmetry; apply sort_by_quality_perm|exact Hxl].
Qed.

Lemma strongly_sorted_filter {A : Type} (R : A -> A -> Prop) (f : A -> bool)
    (l : list A) :
  StronglySorted R l -> StronglySorted R (List.filter f l).
Proof.
  induction 1 as [|a l _ IH Hf]; simpl; [constructor|].
  destruct (f a); [|exact IH]. constructor; [exact IH|].
  rewrite List.Forall_forall in *. intros b Hb.
  apply filter_In in Hb as [Hb _]. auto.
Qed.

(** The slots come out of the walk each ending before the next begins. *)
Lemma slots_chain (events : list CalendarEvent.t)
    (start_time end_time : datetime) (d : gmap string pyval) (m : Z)
    (slots : list FreeTimeSlot.t) :
  (forall e, In e events -> CalendarEvent.is_busy e = true -> well_formed e) ->
  calculate_free_time_slots events start_time end_time d m = Ok slots ->
  StronglySorted
    (fun s1 s2 => FreeTimeSlot.start_time s1 < FreeTimeSlot.end_time s1
                  /\ FreeTimeSlot.end_time s1 <= FreeTimeSlot.start_time s2)
    slots.
Proof.
  intros Hwf Hs. pose proof (slots_bounds _ _ _ _ _ _ Hs) as Hb.
  assert (Hchain : StronglySorted
                     (fun s1 s2 => FreeTimeSlot.end_time s1
                                   <= FreeTimeSlot.start_time s2) slots).
  { apply (strongly_sorted_map (fun g1 g2 => snd g1 <= fst g2) slot_bounds).
    rewrite Hb. apply kept_gaps_chain.
    apply List.Forall_forall. intros e He.
    apply In_busy_events in He as [He Hbe]. auto. }
  eapply strongly_sorted_weaken; [|exact Hchain].
  intros s1 s2 H1 _ H12. split; [|exact H12].
  apply (in_map slot_bounds) in H1. rewrite Hb in H1.
  apply kept_gaps_after in H1. simpl in H1. lia.
Qed.


Lemma slots_scored_in_values (events : list CalendarEvent.t)
    (start_time end_time : datetime) (d : gmap string pyval) (m : Z)
    (slots : list FreeTimeSlot.t) :
  preferences_well_typed d = true ->
  calculate_free_time_slots events start_time end_time d m = Ok slots ->
  Forall scored_in_values slots.
Proof.
  intros Hwt Hs.
  destruct (well_typed_hours _ Hwt) as (ws & we & ps & pe & Hw & Hp).
  eapply slots_Forall_gap; [exact Hs|].
  intros gap slot _ Hslot. apply slot_of_gap_Ok in Hslot as (_ & _ & Hq).
  rewrite (quality_eq_spec _ _ _ _ _ _ _ Hw Hp) in Hq. injection Hq as Hq.
  unfold scored_in_values. rewrite <- Hq. apply scoreSlot_spec_in_values.
Qed.


Lemma UserPreferences_dict_well_typed (user_prefs : UserPreferences.t) :
  preferences_well_typed (UserPreferences_dict user_prefs) = true.
Proof. reflexivity. Qed.

Lemma schedule_tasks_quality_slots_eq (calendar_events : list CalendarEvent.t)
    (date_range_start date_range_end : datetime) (user_prefs : UserPreferences.t) :
  exists free_slots,
    calculate_free_time_slots calendar_events date_range_start date_range_end
      (UserPreferences_dict user_prefs)
      (UserPreferences.minimum_focus_block_minutes user_prefs) = Ok free_slots
    /\ schedule_tasks_quality_slots calendar_events date_range_start
         date_range_end user_prefs = Ok (quality_slots free_slots).
Proof.
  destruct (calculate_free_time_slots_total calendar_events date_range_start
              date_range_end (UserPreferences_dict user_prefs)
              (UserPreferences.minimum_focus_block_minutes user_prefs)
              (UserPreferences_dict_well_typed user_prefs)) as [free_slots Hs].
  exists free_slots. split; [exact Hs|].
  unfold schedule_tasks_quality_slots. now rewrite Hs.
Qed.

(** X12: for every preference document and every list of calendar events
    whose busy ones have [end >= start], steps 3 and 4 of the scheduler
    succeed, and the slots handed on are ordered by score from high to low,
    slots of equal score from early to late. *)
Theorem offered_slots_order (calendar_events : list CalendarEvent.t)
    (date_range_start date_range_end : datetime) (user_prefs : UserPreferences.t) :
  (forall e, In e calendar_events -> CalendarEvent.is_busy e = true ->
             well_formed e) ->
  exists offered,
    schedule_tasks_quality_slots calendar_events date_range_start
      date_range_end user_prefs = Ok offered
    /\ StronglySorted offered_before offered.
Proof.
  intros Hwf.
  destruct (schedule_tasks_quality_slots_eq calendar_events date_range_start
              date_range_end user_prefs) as (free_slots & Hs & Hq).
  exists (quality_slots free_slots). split; [exact Hq|].
  unfold quality_slots. apply sort_by_quality_sorted.
  - apply List.Forall_forall. intros slot Hin. apply filter_In in Hin as [Hin _].
    pose proof (slots_scored_in_values _ _ _ _ _ _
                  (UserPreferences_dict_well_typed user_prefs) Hs) as Hv.
    rewrite List.Forall_forall in Hv. auto.
  - apply strongly_sorted_filter.
    eapply strongly_sorted_weaken; [|exact (slots_chain _ _ _ _ _ _ Hwf Hs)].
    intros s1 s2 _ _ [H1 H2]. lia.
Qed.


Lemma offered_slots_order_witness :
  (forall e, In e [meeting "lunch" (at_time 0 12 0) (at_time 0 13 0)] ->
             CalendarEvent.is_busy e = true -> well_formed e)
  /\ exists offered,
       schedule_tasks_quality_slots
         [meeting "lunch" (at_time 0 12 0) (at_time 0 13 0)]
         (at_time 0 5 0) (at_time 0 17 0) default_document = Ok offered
       /\ StronglySorted offered_before offered.
Proof.
  assert (Hwf : forall e,
             In e [meeting "lunch" (at_time 0 12 0) (at_time 0 13 0)] ->
             CalendarEvent.is_busy e = true -> well_formed e).
  { intros e [<-|[]] _. unfold well_formed. vm_compute. discriminate. }
  split; [exact Hwf|].
  exact (offered_slots_order
           [meeting "lunch" (at_time 0 12 0) (at_time 0 13 0)]
           (at_time 0 5 0) (at_time 0 17 0) default_document Hwf).
Defined.


(** * Reading the calendar response *)

Lemma event_of_item_None (f : string -> option datetime) (event : CalendarItem.t) :
  event_of_item f event = None <-> unreadable f event.
Proof.
  unfold event_of_item, unreadable.
  destruct (CalendarItem.start_dateTime event) as [s|];
    destruct (CalendarItem.end_dateTime event) as [e|].
  - split.
    + intros H. exists s, e. split; [reflexivity|]. split; [reflexivity|].
      destruct (f (str_replace "Z" "+00:00" s)); [|now left].
      destruct (f (str_replace "Z" "+00:00" e)); [|right; now left].
      destruct (CalendarItem.id event); [discriminate|right; now right].
    + intros (s' & e' & Hs & He & H). injection Hs as <-. injection He as <-.
      destruct H as [H|[H|H]].
      * now rewrite H.
      * rewrite H. now destruct (f (str_replace "Z" "+00:00" s)).
      * rewrite H. destruct (f (str_replace "Z" "+00:00" s)); [|reflexivity].
        now destruct (f (str_replace "Z" "+00:00" e)).
  - split; [discriminate|intros (? & ? & _ & H & _); discriminate].
  - split; [discriminate|intros (? & ? & H & _); discriminate].
  - split; [discriminate|intros (? & ? & H & _); discriminate].
Qed.

Lemma event_of_item_untimed (f : string -> option datetime) (event : CalendarItem.t) :
  timed event = false -> event_of_item f event = Some [].
Proof.
  unfold timed, event_of_item.
  destruct (CalendarItem.start_dateTime event);
    destruct (CalendarItem.end_dateTime event); try discriminate; reflexivity.
Qed.

Lemma event_of_item_timed (f : string -> option datetime) (event : CalendarItem.t)
    (new : list CalendarEvent.t) :
  timed event = true -> event_of_item f event = Some new ->
  exists e, new = [e] /\ converted f event e.
Proof.
  unfold timed, event_of_item, converted.
  destruct (CalendarItem.start_dateTime event) as [s|];
    destruct (CalendarItem.end_dateTime event) as [e|]; try discriminate.
  intros _.
  destruct (f (str_replace "Z" "+00:00" s)) as [sd|] eqn:Es; [|discriminate].
  destruct (f (str_replace "Z" "+00:00" e)) as [ed|] eqn:Ee; [|discriminate].
  destruct (CalendarItem.id event) as [i|]; [|discriminate].
  intros H. injection H as <-. eexists. split; [reflexivity|]. simpl.
  repeat split; eauto.
Qed.

Lemma for_items_acc (f : string -> option datetime) (items : list CalendarItem.t) :
  forall events,
    for_items f items events
    = match for_items f items [] with
      | Some new => Some (events ++ new)
      | None => None
      end.
Proof.
  induction items as [|event rest IH]; intros events; simpl.
  - now rewrite app_nil_r.
  - destruct (event_of_item f event) as [new|]; [|reflexivity].
    rewrite (IH (events ++ new)), (IH new).
    destruct (for_items f rest []); [|reflexivity]. now rewrite app_assoc.
Qed.

Lemma for_items_None (f : string -> option datetime) (items : list CalendarItem.t) :
  for_items f items [] = None
  <-> exists event, In event items /\ unreadable f event.
Proof.
  induction items as [|event rest IH]; simpl.
  - split; [discriminate|intros (? & [] & _)].
  - destruct (event_of_item f event) as [new|] eqn:E.
    + rewrite for_items_acc.
      destruct (for_items f rest []) as [more|] eqn:Er.
      * split; [discriminate|]. intros (ev & [<-|Hin] & Hu).
        -- apply event_of_item_None in Hu. congruence.
        -- assert (H : @None (list CalendarEvent.t) = None) by reflexivity.
           destruct IH as [_ IH]. discriminate IH. now exists ev.
      * split; [|reflexivity]. intros _.
        destruct IH as [IH _]. destruct (IH eq_refl) as (ev & Hin & Hu).
        exists ev. split; [now right|exact Hu].
    + split; [|reflexivity]. intros _. exists event.
      split; [now left|]. now apply event_of_item_None.
Qed.

Lemma calendar_events_of_response_error (f : string -> option datetime)
    (status_code : Z) (items : list CalendarItem.t) :
  status_code <> 200 \/ (exists event, In event items /\ unreadable f event) ->
  calendar_events_of_response f status_code (Some items) = [].
Proof.
  intros [Hs|Hu]; unfold calendar_events_of_response.
  - apply Z.eqb_neq in Hs. now rewrite Hs.
  - destruct (status_code =? 200); [|reflexivity]. simpl.
    apply for_items_None in Hu. now rewrite Hu.
Qed.

(** X14: one bad entry loses the whole calendar: when the status is not
    200, or some timed entry has a timestamp that [fromisoformat] rejects
    or has no ["id"], the function returns the empty list, whatever the
    other entries are. *)
Theorem calendar_events_lost_on_error (fromisoformat : string -> option datetime)
    (status_code : Z) (items : list CalendarItem.t) :
  status_code <> 200
  \/ (exists event, In event items /\ unreadable fromisoformat event) ->
  calendar_events_of_response fromisoformat status_code (Some items) = [].
Proof. apply calendar_events_of_response_error. Qed.

Lemma for_items_events (f : string -> option datetime)
    (items : list CalendarItem.t) (events : list CalendarEvent.t) :
  for_items f items [] = Some events ->
  Forall2 (converted f) (List.filter timed items) events.
Proof.
  revert events. induction items as [|event rest IH]; simpl; intros events H.
  - injection H as <-. constructor.
  - destruct (event_of_item f event) as [new|] eqn:E; [|discriminate].
    rewrite for_items_acc in H.
    destruct (for_items f rest []) as [more|]; [|discriminate].
    injection H as <-. destruct (timed event) eqn:Et.
    + destruct (event_of_item_timed f event new Et E) as (e & -> & Hc).
      simpl. constructor; [exact Hc|]. now apply IH.
    + rewrite (event_of_item_untimed f event Et) in E. injection E as <-.
      simpl. now apply IH.
Qed.

(** X15: when the status is 200 and no timed entry is unreadable, the
    events returned are, in order, one per timed entry (all-day entries
    give none): the entry's id, its summary or "Untitled Event" as title,
    its two timestamps parsed after ["Z"] is replaced by ["+00:00"], busy
    exactly when its transparency is missing or "opaque", and the category
    of its summary. *)
Theorem calendar_events_of_readable_response
    (fromisoformat : string -> option datetime) (items : list CalendarItem.t) :
  (forall event, In event items -> ~ unreadable fromisoformat event) ->
  Forall2 (converted fromisoformat) (List.filter timed items)
    (calendar_events_of_response fromisoformat 200 (Some items)).
Proof.
  intros Hok. unfold calendar_events_of_response. simpl.
  destruct (for_items fromisoformat items []) as [events|] eqn:E.
  - simpl. now apply for_items_events.
  - apply for_items_None in E as (event & Hin & Hu). exfalso.
    exact (Hok event Hin Hu).
Qed.

Lemma calendar_events_lost_on_error_witness :
  (200 <> 200
   \/ exists event, In event [lunch_item; broken_item]
                    /\ unreadable sample_fromisoformat event)
  /\ calendar_events_of_response sample_fromisoformat 200
       (Some [lunch_item; broken_item]) = [].
Proof.
  assert (H : 200 <> 200
              \/ exists event, In event [lunch_item; broken_item]
                               /\ unreadable sample_fromisoformat event).
  { right. exists broken_item. split; [right; left; reflexivity|].
    exists "yesterday"%string, "2025-07-26T13:00:00Z"%string.
    split; [reflexivity|]. split; [reflexivity|]. left. reflexivity. }
  split; [exact H|].
  exact (calendar_events_lost_on_error sample_fromisoformat 200
           [lunch_item; broken_item] H).
Defined.

Lemma sample_items_readable :
  forall event, In event [lunch_item; transparent_item; all_day_item] ->
                ~ unreadable sample_fromisoformat event.
Proof.
  intros event [<-|[<-|[<-|[]]]] (s & e & Hs & He & H); simpl in *;
    try discriminate;
    injection Hs as <-; injection He as <-;
    destruct H as [H|[H|H]]; discriminate.
Defined.

Lemma calendar_events_of_readable_response_witness :
  (forall event, In event [lunch_item; transparent_item; all_day_item] ->
                 ~ unreadable sample_fromisoformat event)
  /\ Forall2 (converted sample_fromisoformat)
       (List.filter timed [lunch_item; transparent_item; all_day_item])
       (calendar_events_of_response sample_fromisoformat 200
          (Some [lunch_item; transparent_item; all_day_item])).
Proof.
  split; [exact sample_items_readable|].
  exact (calendar_events_of_readable_response sample_fromisoformat
           [lunch_item; transparent_item; all_day_item] sample_items_readable).
Defined.

Lemma filter_app_bool {A : Type} (f : A -> bool) (l1 l2 : list A) :
  List.filter f (l1 ++ l2) = List.filter f l1 ++ List.filter f l2.
Proof.
  induction l1 as [|a l1 IH]; simpl; [reflexivity|].
  destruct (f a); simpl; now rewrite IH.
Qed.

Lemma for_items_opaque (f : string -> option datetime)
    (items : list CalendarItem.t) :
  forall events,
    for_items f items [] = Some events ->
    exists events',
      for_items f (List.filter opaque items) [] = Some events'
      /\ List.filter CalendarEvent.is_busy events'
         = List.filter CalendarEvent.is_busy events.
Proof.
  induction items as [|event rest IH]; simpl; intros events H.
  - injection H as <-. now exists [].
  - destruct (event_of_item f event) as [new|] eqn:E; [|discriminate].
    rewrite for_items_acc in H.
    destruct (for_items f rest []) as [more|]; [|discriminate].
    injection H as <-. destruct (IH more eq_refl) as (more' & Hm & Hf).
    destruct (opaque event) eqn:Eo.
    + simpl. rewrite E, for_items_acc, Hm. exists (new ++ more').
      split; [reflexivity|]. now rewrite !filter_app_bool, Hf.
    + exists more'. split; [exact Hm|]. rewrite filter_app_bool, Hf.
      destruct (timed event) eqn:Et.
      * destruct (event_of_item_timed f event new Et E)
          as (e & -> & _ & _ & _ & _ & Hb & _).
        simpl. now rewrite Hb, Eo.
      * rewrite (event_of_item_untimed f event Et) in E. injection E as <-.
        reflexivity.
Qed.

(** X16: entries marked transparent never block time: when the response
    is readable, the free slots computed from its events are the ones
    computed from the response without its transparent entries. *)
Theorem transparent_entries_never_block
    (fromisoformat : string -> option datetime) (items : list CalendarItem.t)
    (start_time end_time : datetime) (user_preferences : gmap string pyval)
    (minimum_slot_minutes : Z) :
  (forall event, In event items -> ~ unreadable fromisoformat event) ->
  calculate_free_time_slots
    (calendar_events_of_response fromisoformat 200 (Some items))
    start_time end_time user_preferences minimum_slot_minutes
  = calculate_free_time_slots
      (calendar_events_of_response fromisoformat 200
         (Some (List.filter opaque items)))
      start_time end_time user_preferences minimum_slot_minutes.
Proof.
  intros Hok. unfold calendar_events_of_response. simpl.
  destruct (for_items fromisoformat items []) as [events|] eqn:E.
  - destruct (for_items_opaque _ _ _ E) as (events' & -> & Hf). simpl.
    rewrite !calculate_free_time_slots_eq. unfold busy_events. now rewrite Hf.
  - apply for_items_None in E as (event & Hin & Hu). exfalso.
    exact (Hok event Hin Hu).
Qed.

Lemma transparent_entries_never_block_witness :
  (forall event, In event [lunch_item; transparent_item; all_day_item] ->
                 ~ unreadable sample_fromisoformat event)
  /\ calculate_free_time_slots
       (calendar_events_of_response sample_fromisoformat 200
          (Some [lunch_item; transparent_item; all_day_item]))
       (at_time 0 9 0) (at_time 0 17 0) default_preferences 30
     = calculate_free_time_slots
         (calendar_events_of_response sample_fromisoformat 200
            (Some (List.filter opaque
                     [lunch_item; transparent_item; all_day_item])))
         (at_time 0 9 0) (at_time 0 17 0) default_preferences 30.
Proof.
  split; [exact sample_items_readable|].
  exact (transparent_entries_never_block sample_fromisoformat
           [lunch_item; transparent_item; all_day_item]
           (at_time 0 9 0) (at_time 0 17 0) default_preferences 30
           sample_items_readable).
Defined.



(** * Past events and a higher minimum *)

(** X18: a busy interval that ends at or before the range start changes
    nothing: the result is the one computed without it (busy intervals
    having [end >= start]). *)
Theorem past_busy_interval_ignored (events1 events2 : list CalendarEvent.t)
    (past : CalendarEvent.t) (start_time end_time : datetime)
    (user_preferences : gmap string pyval) (minimum_slot_minutes : Z) :
  CalendarEvent.end_time past <= start_time ->
  (forall e, In e (events1 ++ past :: events2) ->
             CalendarEvent.is_busy e = true -> well_formed e) ->
  calculate_free_time_slots (events1 ++ past :: events2) start_time end_time
    user_preferences minimum_slot_minutes
  = calculate_free_time_slots (events1 ++ events2) start_time end_time
      user_preferences minimum_slot_minutes.
Proof.
  intros Hpast Hwf.
  rewrite (calculate_free_time_slots_perm (events1 ++ past :: events2)
             (past :: events1 ++ events2))
    by (auto; symmetry; apply Permutation_middle).
  destruct (CalendarEvent.is_busy past) eqn:Hb.
  - assert (Hw : well_formed past).
    { apply Hwf; [|exact Hb]. apply in_or_app. right. now left. }
    unfold well_formed in Hw.
    rewrite !calculate_free_time_slots_eq. f_equal.
    unfold busy_events. cbn [List.filter]. rewrite Hb. cbn [sort_by_start].
    rewrite kept_gaps_absorb by lia. f_equal. lia.
  - unfold calculate_free_time_slots, busy_events. cbn [List.filter].
    now rewrite Hb.
Qed.

Lemma past_busy_interval_ignored_witness :
  CalendarEvent.end_time (meeting "standup" (at_time 0 7 0) (at_time 0 8 0))
  <= at_time 0 9 0
  /\ calculate_free_time_slots
       ([meeting "lunch" (at_time 0 12 0) (at_time 0 13 0)]
        ++ meeting "standup" (at_time 0 7 0) (at_time 0 8 0) :: [])
       (at_time 0 9 0) (at_time 0 17 0) default_preferences 30
     = calculate_free_time_slots
         ([meeting "lunch" (at_time 0 12 0) (at_time 0 13 0)] ++ [])
         (at_time 0 9 0) (at_time 0 17 0) default_preferences 30.
Proof.
  assert (H : CalendarEvent.end_time
                (meeting "standup" (at_time 0 7 0) (at_time 0 8 0))
              <= at_time 0 9 0) by (vm_compute; discriminate).
  split; [exact H|].
  apply (past_busy_interval_ignored
           [meeting "lunch" (at_time 0 12 0) (at_time 0 13 0)] []
           (meeting "standup" (at_time 0 7 0) (at_time 0 8 0))
           (at_time 0 9 0) (at_time 0 17 0) default_preferences 30 H).
  intros e [<-|[<-|[]]] _; unfold well_formed; vm_compute; discriminate.
Defined.

Lemma kept_gaps_higher_minimum (m1 m2 : Z) (end_time : datetime)
    (events : list CalendarEvent.t) :
  m1 <= m2 ->
  forall current_time,
    kept_gaps events m2 end_time current_time
    = List.filter (fun gap => m2 <=? int_total_minutes (snd gap - fst gap))
        (kept_gaps events m1 end_time current_time).
Proof.
  intros Hm.
  assert (Hg : forall a b,
            gap_if_kept a b m2
            = List.filter (fun gap => m2 <=? int_total_minutes (snd gap - fst gap))
                (gap_if_kept a b m1)).
  { intros a b. unfold gap_if_kept, keeps_gap. rewrite !Z.geb_leb.
    destruct (a <? b); simpl; [|reflexivity].
    destruct (m1 <=? int_total_minutes (b - a)) eqn:E1; simpl.
    - now destruct (m2 <=? int_total_minutes (b - a)).
    - apply Z.leb_gt in E1.
      replace (m2 <=? int_total_minutes (b - a)) with false; [reflexivity|].
      symmetry. apply Z.leb_gt. lia. }
  induction events as [|e rest IH]; intros current_time; cbn [kept_gaps].
  - apply Hg.
  - now rewrite filter_app_bool, <- Hg, <- IH.
Qed.

Lemma mapM_filter {A B : Type} (f : A -> result B) (p : A -> bool)
    (p' : B -> bool) (l : list A) (bs : list B) :
  (forall a b, f a = Ok b -> p a = p' b) ->
  mapM f l = Ok bs ->
  mapM f (List.filter p l) = Ok (List.filter p' bs).
Proof.
  intros Hp. revert bs. induction l as [|a l IH]; simpl; intros bs H.
  - injection H as <-. reflexivity.
  - destruct (f a) as [b|] eqn:Ea; simpl in H; [|discriminate].
    destruct (mapM f l) as [bs'|]; simpl in H; [|discriminate].
    injection H as <-. specialize (IH bs' eq_refl). simpl.
    rewrite <- (Hp a b Ea). destruct (p a); simpl.
    + now rewrite Ea, IH.
    + exact IH.
Qed.

(** X19: raising the minimum only removes slots: the result for a higher
    minimum is the result for the lower one without the slots whose
    duration is below the higher minimum. *)
Theorem higher_minimum_filters_slots (events : list CalendarEvent.t)
    (start_time end_time : datetime) (user_preferences : gmap string pyval)
    (minimum1 minimum2 : Z) (slots : list FreeTimeSlot.t) :
  minimum1 <= minimum2 ->
  calculate_free_time_slots events start_time end_time user_preferences
    minimum1 = Ok slots ->
  calculate_free_time_slots events start_time end_time user_preferences
    minimum2
  = Ok (List.filter
          (fun slot => minimum2 <=? FreeTimeSlot.duration_minutes slot) slots).
Proof.
  intros Hm Hs. rewrite calculate_free_time_slots_eq in *.
  rewrite (kept_gaps_higher_minimum minimum1 minimum2) by exact Hm.
  apply mapM_filter; [|exact Hs].
  intros gap slot Hslot. apply slot_of_gap_Ok in Hslot as (_ & -> & _).
  reflexivity.
Qed.

Lemma higher_minimum_filters_slots_witness :
  30 <= 200
  /\ calculate_free_time_slots [meeting "lunch" (at_time 0 12 0) (at_time 0 13 0)]
       (at_time 0 9 0) (at_time 0 17 0) default_preferences 30
     = Ok [FreeTimeSlot.Build (at_time 0 9 0) (at_time 0 12 0) 180 1%float;
           FreeTimeSlot.Build (at_time 0 13 0) (at_time 0 17 0) 240 1%float]
  /\ calculate_free_time_slots [meeting "lunch" (at_time 0 12 0) (at_time 0 13 0)]
       (at_time 0 9 0) (at_time 0 17 0) default_preferences 200
     = Ok (List.filter
             (fun slot => 200 <=? FreeTimeSlot.duration_minutes slot)
             [FreeTimeSlot.Build (at_time 0 9 0) (at_time 0 12 0) 180 1%float;
              FreeTimeSlot.Build (at_time 0 13 0) (at_time 0 17 0) 240 1%float]).
Proof.
  assert (Hm : 30 <= 200) by (vm_compute; discriminate).
  assert (Hs : calculate_free_time_slots
                 [meeting "lunch" (at_time 0 12 0) (at_time 0 13 0)]
                 (at_time 0 9 0) (at_time 0 17 0) default_preferences 30
               = Ok [FreeTimeSlot.Build (at_time 0 9 0) (at_time 0 12 0) 180 1%float;
                     FreeTimeSlot.Build (at_time 0 13 0) (at_time 0 17 0) 240 1%float])
    by reflexivity.
  split; [exact Hm|]. split; [exact Hs|].
  exact (higher_minimum_filters_slots _ _ _ _ _ _ _ Hm Hs).
Defined.

(** * The score, from the dictionary *)






(** * The minute count in binary64 *)

(** At these spans, the last one a microsecond short of a century, the
    binary64 computation gives the whole minutes of the span. *)
Lemma int_total_minutes_binary64_samples :
  Forall (fun d => int_total_minutes_binary64 d = Some (int_total_minutes d))
    [0; 1; 59999999; 60000000; 10800000000; 86399999999; century - 1].
Proof. repeat constructor. Qed.

(** On a working day with a lunch meeting the two walks return the same
    slots. *)
Lemma calculate_free_time_slots_binary64_sample :
  calculate_free_time_slots_binary64
    [meeting "lunch" (at_time 0 12 0) (at_time 0 13 0)]
    (at_time 0 9 0) (at_time 0 17 0) default_preferences 30
  = calculate_free_time_slots
      [meeting "lunch" (at_time 0 12 0) (at_time 0 13 0)]
      (at_time 0 9 0) (at_time 0 17 0) default_preferences 30.
Proof. vm_compute. reflexivity. Qed.
